(** * nest-client-generator: extraction of NestJS controllers and generation
      of a typed HTTP client

    A shallow embedding of [src/client-generator.ts] (the generator),
    [src/http.metadata.ts] (the intermediate representation) and
    [src/nest-controller-extractor.ts] (the extractor), followed by the
    properties of the specification that were checked against it.

    The TypeScript code runs on top of the ts-morph library.  Only the part
    of the ts-morph interface the code calls is modelled: a declaration is a
    record of what its getters return. *)

From Stdlib Require Import String Ascii List Bool Arith Lia.
Import ListNotations.
Open Scope string_scope.
Set Warnings "-register-all".

(** ** The JavaScript run time the code relies on *)

Module Js.

(** What a [throw] carries: [new Error(message)] raised by the code itself,
    the [TypeError] of the run time (a property read on [undefined] or
    [null]), or an exception raised inside ts-morph. *)
Inductive Exn : Type :=
| JsError (message : string)
| TypeError
| LibraryError.

Inductive Result (A : Type) : Type :=
| Ok (a : A)
| Throw (e : Exn).
Arguments Ok {A} a.
Arguments Throw {A} e.

Definition bind {A B} (r : Result A) (k : A -> Result B) : Result B :=
  match r with
  | Ok a => k a
  | Throw e => Throw e
  end.

Definition isOk {A} (r : Result A) : bool :=
  match r with Ok _ => true | Throw _ => false end.

(** [xs.map(f)] where [f] may throw: elements are visited from left to
    right and the first exception ends the traversal. *)
Fixpoint mapM {A B} (f : A -> Result B) (xs : list A) : Result (list B) :=
  match xs with
  | [] => Ok []
  | x :: xs' =>
      bind (f x) (fun y => bind (mapM f xs') (fun ys => Ok (y :: ys)))
  end.

(** [xs[i]]: [undefined] (here [None]) when [i] is out of range. *)
Definition index {A} (xs : list A) (i : nat) : option A := nth_error xs i.

(** [xs.push(x)]. *)
Definition push {A} (xs : list A) (x : A) : list A := xs ++ [x].

(** A string-typed value inside a template literal: [undefined] prints as
    the nine letters of its name. *)
Definition interpolate (v : option string) : string :=
  match v with
  | Some s => s
  | None => "undefined"
  end.

(** [s.startsWith(p)]. *)
Fixpoint startsWith (s p : string) {struct p} : bool :=
  match p with
  | EmptyString => true
  | String b p' =>
      match s with
      | EmptyString => false
      | String a s' => Ascii.eqb a b && startsWith s' p'
      end
  end.

(** [xs.join(sep)]. *)
Definition join (sep : string) (xs : list string) : string :=
  String.concat sep xs.

(** [s.split(c)] for a one-character separator: never empty, and a
    separator at either end yields an empty piece there. *)
Fixpoint split (c : ascii) (s : string) : list string :=
  match s with
  | EmptyString => [""]
  | String a s' =>
      if Ascii.eqb a c then "" :: split c s'
      else match split c s' with
           | piece :: pieces => String a piece :: pieces
           | [] => [String a ""]
           end
  end.

(** [s.replace(/c/g, '')]: every occurrence of the character is dropped. *)
Fixpoint removeAll (c : ascii) (s : string) : string :=
  match s with
  | EmptyString => ""
  | String a s' =>
      if Ascii.eqb a c then removeAll c s' else String a (removeAll c s')
  end.

(** The longest prefix of [s] free of [c]: what [[^c]*] consumes. *)
Fixpoint takeUntil (c : ascii) (s : string) : string :=
  match s with
  | EmptyString => ""
  | String a s' =>
      if Ascii.eqb a c then "" else String a (takeUntil c s')
  end.

(** [Some p] when [s] is [p] followed by [suffix]. *)
Fixpoint stripSuffix (suffix s : string) : option string :=
  if String.eqb s suffix then Some ""
  else match s with
       | EmptyString => None
       | String a s' => option_map (String a) (stripSuffix suffix s')
       end.

(** Whether [k in o] holds for an object literal [o] is decided by the own
    keys of [o] and by the keys [o] inherits from [Object.prototype]. *)
Definition objectPrototypeKeys : list string :=
  [ "constructor"; "__defineGetter__"; "__defineSetter__"; "hasOwnProperty";
    "__lookupGetter__"; "__lookupSetter__"; "isPrototypeOf";
    "propertyIsEnumerable"; "toString"; "valueOf"; "__proto__";
    "toLocaleString" ].

Definition inherited (k : string) : bool :=
  existsb (String.eqb k) objectPrototypeKeys.

End Js.

Import Js.

Declare Scope js_scope.
Delimit Scope js_scope with js.
Notation "x <- r ;; k" := (bind r (fun x => k))
  (at level 61, r at next level, right associativity) : js_scope.
Open Scope js_scope.

(** ** The regular expressions of the extractor *)

Module Regex.

(** [/^:[^(]+/.exec(p)]: a colon, then at least one character other than an
    opening parenthesis.  The expression has no capture group, so the match
    array has the matched text at index 0 and nothing else. *)
Definition execParameter (p : string) : option (list string) :=
  match p with
  | String a rest =>
      if Ascii.eqb a ":" then
        match takeUntil "(" rest with
        | EmptyString => None
        | name => Some [String ":" name]
        end
      else None
  | EmptyString => None
  end.

(** [/([^/]+)\.controller\.ts$/.exec(s)]: the text must end in
    [.controller.ts], and what stands before it must end in a character
    other than a slash; the leftmost match starts the group right after the
    last slash.  The one group takes part in every match: the match array
    is given as the pair of its index 0 (the matched text) and its index 1
    (the group). *)
Definition execControllerFile (s : string) : option (string * string) :=
  match stripSuffix ".controller.ts" s with
  | None => None
  | Some before =>
      match last (split "/" before) "" with
      | EmptyString => None
      | group1 => Some (group1 ++ ".controller.ts", group1)
      end
  end.

(** [s.replace(/Controller$/, '')]. *)
Definition replaceControllerSuffix (s : string) : string :=
  match stripSuffix "Controller" s with
  | Some before => before
  | None => s
  end.

(** [s.replace(/'/g, '')]. *)
Definition replaceQuotes (s : string) : string := removeAll "'" s.

End Regex.

(** ** The part of ts-morph the code reads *)

(** A resolved type.  [getText] is what [type.getText()] returns and
    [toString] what the conversion of the type object to a string yields (a
    template literal that interpolates the object itself uses the latter).
    A property is given by its name and the declared type of its symbol. *)
Inductive TsType : Type :=
  mkTsType {
    getText : string;
    toString : string;
    getTypeArguments : list TsType;
    isVoid : bool;
    getProperties : list (string * TsType)
  }.

(** [type.getPropertyOrThrow(name).getDeclaredType()].  ts-morph raises when
    the type has no such property; a [name] that is [undefined] is not a
    property name, and the call raises as well. *)
Definition getPropertyOrThrow_getDeclaredType
    (t : TsType) (name : option string) : Result TsType :=
  match name with
  | None => Throw LibraryError
  | Some n =>
      match find (fun p => String.eqb (fst p) n) (getProperties t) with
      | Some p => Ok (snd p)
      | None => Throw LibraryError
      end
  end.

(** A decorator: its name, the source text of each argument node
    ([argument.compilerNode.getText()]) and the type of the decorator node
    itself. *)
Module Decorator.
Record t : Type := mk {
  getName : string;
  getArguments : list string;
  getType : TsType
}.
End Decorator.

(** [node.getDecorator(name)]: the first decorator of that name. *)
Definition findDecorator (name : string) (ds : list Decorator.t)
  : option Decorator.t :=
  find (fun d => String.eqb (Decorator.getName d) name) ds.

Module ParameterDeclaration.
Record t : Type := mk {
  getName : string;
  getDecorators : list Decorator.t;
  getType : TsType
}.
Definition getDecorator (name : string) (p : t) : option Decorator.t :=
  findDecorator name (getDecorators p).
End ParameterDeclaration.

(** A parameter as the text of a function type shows it. *)
Definition parameterText (p : ParameterDeclaration.t) : string :=
  ParameterDeclaration.getName p ++ ": "
  ++ getText (ParameterDeclaration.getType p).

(** The type of a method node: the function type of the method.  Its text
    is the parameter list, an arrow and the text of the return type; it has
    no type argument, is not void, and converts to a string as any object
    without a conversion of its own does. *)
Definition functionType (parameters : list ParameterDeclaration.t)
    (returnType : TsType) : TsType :=
  mkTsType
    ("(" ++ join ", " (map parameterText parameters) ++ ") => "
     ++ getText returnType)
    "[object Object]" [] false [].

(** [getReturnType] is the return type the signature declares.  The
    extractor does not read it: it calls [method.getType()], which is the
    type of the method node. *)
Module MethodDeclaration.
Record t : Type := mk {
  getName : string;
  getDecorators : list Decorator.t;
  getParameters : list ParameterDeclaration.t;
  getReturnType : TsType
}.
Definition getType (method : t) : TsType :=
  functionType (getParameters method) (getReturnType method).
End MethodDeclaration.

(** A class expression may be anonymous: [getName] is then [undefined]. *)
Module ClassDeclaration.
Record t : Type := mk {
  getName : option string;
  getDecorators : list Decorator.t;
  getMethods : list MethodDeclaration.t
}.
Definition getDecorator (name : string) (c : t) : option Decorator.t :=
  findDecorator name (getDecorators c).
End ClassDeclaration.

Module SourceFile.
Record t : Type := mk {
  getBaseName : string;
  getClasses : list ClassDeclaration.t
}.
End SourceFile.

(** [project.getSourceFiles()]. *)
Definition Project : Type := list SourceFile.t.

(** ** The intermediate representation ([http.metadata.ts])

    The records hold what the extractor stores at run time: where the code
    can store [undefined] in a field whose declared type does not say so, the
    field is an [option]. *)

Inductive HttpMethod : Type := GET | POST | PUT | DELETE | PATCH.

(** What reading [httpMethodByDecoratorName[k]] yields: one of the five
    verbs, a member inherited from [Object.prototype], or [undefined]. *)
Inductive TableValue : Type :=
| Verb (v : HttpMethod)
| Inherited (key : string)
| Undefined.

Record PathParameter : Type := mkPathParameter {
  parameterName : option string;
  parameterType : TsType
}.

(** An element of [(string | PathParameter)[]]. *)
Inductive PathSegment : Type :=
| Literal (text : string)
| PathParam (p : PathParameter).

Module RequestBody.
Record t : Type := mk { name : string; type : option TsType }.
End RequestBody.

Module ResponseBody.
Record t : Type := mk { type : TsType }.
End ResponseBody.

Module QueryParameters.
Record t : Type := mk { name : string; type : TsType }.
End QueryParameters.

Module HttpMethodMetaData.
Record t : Type := mk {
  name : string;
  path : list PathSegment;
  method : TableValue;
  requestBody : option RequestBody.t;
  responseBody : option ResponseBody.t;
  queryParameters : option QueryParameters.t
}.
End HttpMethodMetaData.

Module HttpClassMetaData.
Record t : Type := mk {
  baseName : string;
  methods : list HttpMethodMetaData.t
}.
End HttpClassMetaData.

Module HttpFileMetaData.
Record t : Type := mk {
  apiName : string;
  fileBaseName : string;
  classes : list HttpClassMetaData.t
}.
End HttpFileMetaData.

(** ** The extractor ([nest-controller-extractor.ts]) *)

Module NestControllerExtractor.

(** The own keys of the table of verb decorators. *)
Definition httpMethodByDecoratorName : list (string * HttpMethod) :=
  [ ("Get", GET); ("Post", POST); ("Put", PUT); ("Delete", DELETE);
    ("Patch", PATCH) ].

(** [k in this.httpMethodByDecoratorName]. *)
Definition inTable (k : string) : bool :=
  existsb (fun e => String.eqb (fst e) k) httpMethodByDecoratorName
  || inherited k.

(** [this.httpMethodByDecoratorName[k]]. *)
Definition tableGet (k : string) : TableValue :=
  match find (fun e => String.eqb (fst e) k) httpMethodByDecoratorName with
  | Some e => Verb (snd e)
  | None => if inherited k then Inherited k else Undefined
  end.

(** [a === b] for a string [a] and a [b] that is a string or [undefined]. *)
Definition strictEquals (a : string) (b : option string) : bool :=
  match b with
  | Some s => String.eqb a s
  | None => false
  end.

Definition isPromiseType (type : TsType) : bool :=
  startsWith (getText type) "Promise<".

Definition isControllerClass (classDeclaration : ClassDeclaration.t) : bool :=
  match ClassDeclaration.getDecorator "Controller" classDeclaration with
  | Some _ => true
  | None => false
  end.

Definition isControllerFile (sourceFile : SourceFile.t) : bool :=
  existsb isControllerClass (SourceFile.getClasses sourceFile).

(** [exec(...)![1]]: the assertion is erased at run time, and indexing
    [null] is a [TypeError]. *)
Definition extractFileBaseName (sourceFile : SourceFile.t) : Result string :=
  match Regex.execControllerFile (SourceFile.getBaseName sourceFile) with
  | None => Throw TypeError
  | Some (_, group1) => Ok group1
  end.

Definition extractApiName (sourceFile : SourceFile.t) : string := "wip".

Definition extractPathOfDecorator (decorator : Decorator.t) : string :=
  match index (Decorator.getArguments decorator) 0 with
  | None => ""
  | Some firstArgument => Regex.replaceQuotes firstArgument
  end.

Definition extractBasePathFromClassDeclaration
    (classDeclaration : ClassDeclaration.t) : Result string :=
  match ClassDeclaration.getDecorator "Controller" classDeclaration with
  | Some decorator => Ok (extractPathOfDecorator decorator)
  | None => Throw TypeError
  end.

Definition getHttpMethodDecorator (method : MethodDeclaration.t)
  : option Decorator.t :=
  find (fun d => inTable (Decorator.getName d))
       (MethodDeclaration.getDecorators method).

Definition isHttpMethod (method : MethodDeclaration.t) : bool :=
  match getHttpMethodDecorator method with
  | Some _ => true
  | None => false
  end.

(** The loop of [extractPathParameterType] over the parameters that are
    left, and the [throw] that follows it. *)
Fixpoint scanParameters (methodName : string) (parameterName : option string)
    (parameters : list ParameterDeclaration.t) : Result TsType :=
  match parameters with
  | [] =>
      Throw (JsError ("No parameter with name " ++ interpolate parameterName
                      ++ " found in method " ++ methodName))
  | parameter :: rest =>
      match ParameterDeclaration.getDecorator "Param" parameter with
      | Some parameterDecorator =>
          match index (Decorator.getArguments parameterDecorator) 0 with
          | None => Throw TypeError
          | Some argument =>
              let parameterDecoratorName := Regex.replaceQuotes argument in
              if strictEquals parameterDecoratorName parameterName
              then Ok (ParameterDeclaration.getType parameter)
              else scanParameters methodName parameterName rest
          end
      | None =>
          match ParameterDeclaration.getDecorator "Params" parameter with
          | Some parametersDecorator =>
              getPropertyOrThrow_getDeclaredType
                (Decorator.getType parametersDecorator) parameterName
          | None => scanParameters methodName parameterName rest
          end
      end
  end.

Definition extractPathParameterType (method : MethodDeclaration.t)
    (parameterName : option string) : Result TsType :=
  scanParameters (MethodDeclaration.getName method) parameterName
                 (MethodDeclaration.getParameters method).

(** The callback of [path.split('/').map(...)]. *)
Definition parseSegment (method : MethodDeclaration.t) (p : string)
  : Result PathSegment :=
  match Regex.execParameter p with
  | Some parameterParser =>
      let parameterName := index parameterParser 1 in
      parameterType <- extractPathParameterType method parameterName ;;
      Ok (PathParam (mkPathParameter parameterName parameterType))
  | None => Ok (Literal p)
  end.

Definition parsePath (basePath : string) (decorator : Decorator.t)
    (method : MethodDeclaration.t) : Result (list PathSegment) :=
  let path := basePath ++ extractPathOfDecorator decorator in
  mapM (parseSegment method) (split "/" path).

Definition hasDecorator (name : string) (p : ParameterDeclaration.t) : bool :=
  match ParameterDeclaration.getDecorator name p with
  | Some _ => true
  | None => false
  end.

Definition extractRequestBody (method : MethodDeclaration.t)
  : option RequestBody.t :=
  match find (hasDecorator "Body") (MethodDeclaration.getParameters method) with
  | None => None
  | Some bodyParameter =>
      let bodyParameterType := ParameterDeclaration.getType bodyParameter in
      let bodyParameterType :=
        if isPromiseType bodyParameterType
        then index (getTypeArguments bodyParameterType) 0
        else Some bodyParameterType in
      Some (RequestBody.mk (ParameterDeclaration.getName bodyParameter)
                           bodyParameterType)
  end.

(** [responseType.isVoid()] on [undefined] is a [TypeError]. *)
Definition extractResponseBody (method : MethodDeclaration.t)
  : Result (option ResponseBody.t) :=
  let responseType := MethodDeclaration.getType method in
  let responseType :=
    if isPromiseType responseType
    then index (getTypeArguments responseType) 0
    else Some responseType in
  match responseType with
  | None => Throw TypeError
  | Some responseType =>
      if isVoid responseType then Ok None
      else Ok (Some (ResponseBody.mk responseType))
  end.

Definition extractQueryParametersType (method : MethodDeclaration.t)
  : option QueryParameters.t :=
  match find (hasDecorator "QueryParams")
             (MethodDeclaration.getParameters method) with
  | None => None
  | Some queryParametersParameter =>
      Some (QueryParameters.mk
              (ParameterDeclaration.getName queryParametersParameter)
              (ParameterDeclaration.getType queryParametersParameter))
  end.

(** The fields of the object literal are evaluated in the order they are
    written: the path first, the response body after the request body. *)
Definition extractHttpMethodMetaData (basePath : string)
    (method : MethodDeclaration.t) : Result HttpMethodMetaData.t :=
  match getHttpMethodDecorator method with
  | None => Throw TypeError
  | Some decorator =>
      path <- parsePath basePath decorator method ;;
      let verb := tableGet (Decorator.getName decorator) in
      let requestBody := extractRequestBody method in
      responseBody <- extractResponseBody method ;;
      Ok (HttpMethodMetaData.mk (MethodDeclaration.getName method) path verb
            requestBody responseBody (extractQueryParametersType method))
  end.

Definition extractHttpMethodMetaDataFromClassDeclaration (basePath : string)
    (classDeclaration : ClassDeclaration.t)
  : Result (list HttpMethodMetaData.t) :=
  mapM (extractHttpMethodMetaData basePath)
       (filter isHttpMethod (ClassDeclaration.getMethods classDeclaration)).

Definition extractHttpClassMetaDataFromClassDeclaration
    (classDeclaration : ClassDeclaration.t) : Result HttpClassMetaData.t :=
  basePath <- extractBasePathFromClassDeclaration classDeclaration ;;
  methods <- extractHttpMethodMetaDataFromClassDeclaration
               basePath classDeclaration ;;
  match ClassDeclaration.getName classDeclaration with
  | None => Throw TypeError
  | Some className =>
      Ok (HttpClassMetaData.mk (Regex.replaceControllerSuffix className)
                               methods)
  end.

Definition extractHttpClassMetaData (sourceFile : SourceFile.t)
  : Result (list HttpClassMetaData.t) :=
  mapM extractHttpClassMetaDataFromClassDeclaration
       (filter isControllerClass (SourceFile.getClasses sourceFile)).

Definition extractHttpFileMetadata (sourceFile : SourceFile.t)
  : Result HttpFileMetaData.t :=
  let apiName := extractApiName sourceFile in
  fileBaseName <- extractFileBaseName sourceFile ;;
  classes <- extractHttpClassMetaData sourceFile ;;
  Ok (HttpFileMetaData.mk apiName fileBaseName classes).

Definition extractHttpFilesMetadata (nestProject : Project)
  : Result (list HttpFileMetaData.t) :=
  mapM extractHttpFileMetadata (filter isControllerFile nestProject).

End NestControllerExtractor.

(** ** The generator ([client-generator.ts]) *)

(** The ts-morph structures the generator fills in.  [statements] holds the
    lines the writer callback writes, in order. *)
Inductive StructureKind : Type := StructureKind_Parameter.

Inductive Scope : Type := Scope_Public.

Module ParameterDeclarationStructure.
Record t : Type := mk {
  kind : StructureKind;
  name : option string;
  type : string
}.
End ParameterDeclarationStructure.

Module MethodDeclarationStructure.
Record t : Type := mk {
  name : string;
  returnType : string;
  parameters : list ParameterDeclarationStructure.t;
  isAsync : bool;
  scope : Scope;
  statements : list string
}.
End MethodDeclarationStructure.

Module ClassDeclarationStructure.
Record t : Type := mk {
  name : string;
  isExported : bool;
  methods : list MethodDeclarationStructure.t
}.
End ClassDeclarationStructure.

Module ClientGenerator.

(** The verb inside a template literal.  A verb is its own name; a function
    inherited from [Object.prototype] prints as native code under its own
    name, which for [constructor] is [Object]; the [__proto__] accessor
    yields the prototype object. *)
Definition verbText (v : HttpMethod) : string :=
  match v with
  | GET => "GET"
  | POST => "POST"
  | PUT => "PUT"
  | DELETE => "DELETE"
  | PATCH => "PATCH"
  end.

Definition interpolateMethod (v : TableValue) : string :=
  match v with
  | Verb m => verbText m
  | Inherited k =>
      if String.eqb k "__proto__" then "[object Object]"
      else if String.eqb k "constructor"
           then "function Object() { [native code] }"
           else "function " ++ k ++ "() { [native code] }"
  | Undefined => "undefined"
  end.

(** One step of the loop over the path: a string is skipped, a path
    parameter is pushed. *)
Definition pushPathParameter
    (parameters : list ParameterDeclarationStructure.t)
    (pathParameter : PathSegment) : list ParameterDeclarationStructure.t :=
  match pathParameter with
  | Literal _ => parameters
  | PathParam p =>
      push parameters
        (ParameterDeclarationStructure.mk StructureKind_Parameter
           (parameterName p) (getText (parameterType p)))
  end.

(** [requestBody.type.getText()] on a type that is [undefined] is a
    [TypeError]. *)
Definition generateHttpMethodParameters
    (httpMethodMetaData : HttpMethodMetaData.t) (path : list PathSegment)
  : Result (list ParameterDeclarationStructure.t) :=
  let requestBody := HttpMethodMetaData.requestBody httpMethodMetaData in
  let queryParameters :=
    HttpMethodMetaData.queryParameters httpMethodMetaData in
  let parameters := fold_left pushPathParameter path [] in
  parameters <-
    match requestBody with
    | Some body =>
        match RequestBody.type body with
        | Some type =>
            Ok (push parameters
                  (ParameterDeclarationStructure.mk StructureKind_Parameter
                     (Some (RequestBody.name body)) (getText type)))
        | None => Throw TypeError
        end
    | None => Ok parameters
    end ;;
  let parameters :=
    match queryParameters with
    | Some query =>
        push parameters
          (ParameterDeclarationStructure.mk StructureKind_Parameter
             (Some (QueryParameters.name query))
             (getText (QueryParameters.type query)))
    | None => parameters
    end in
  Ok (push parameters
        (ParameterDeclarationStructure.mk StructureKind_Parameter
           (Some "options") "RequestOptions")).

(** A path element inside the URL template. *)
Definition urlPiece (p : PathSegment) : string :=
  match p with
  | Literal text => text
  | PathParam q => "${" ++ interpolate (parameterName q) ++ "}"
  end.

(** The lines the [statements] callback writes. *)
Definition writeStatements (httpMethodMetaData : HttpMethodMetaData.t)
  : list string :=
  let methodType := HttpMethodMetaData.method httpMethodMetaData in
  let requestBody := HttpMethodMetaData.requestBody httpMethodMetaData in
  let queryParameters :=
    HttpMethodMetaData.queryParameters httpMethodMetaData in
  let lines :=
    [ "const url = `"
        ++ join "/" (map urlPiece (HttpMethodMetaData.path httpMethodMetaData))
        ++ "`;";
      "return http.request({";
      "  ...options,";
      "  url,";
      "  method: '" ++ interpolateMethod methodType ++ "'," ] in
  let lines :=
    match requestBody with
    | Some body => push lines ("  body: " ++ RequestBody.name body ++ ",")
    | None => lines
    end in
  let lines :=
    match queryParameters with
    | Some query =>
        push lines ("  queryParams: " ++ QueryParameters.name query ++ ",")
    | None => lines
    end in
  push lines "});".

(** The structure handed to [clientClass.addMethod].  The return type
    interpolates the response type object itself. *)
Definition generateClientMethod (httpMethodMetaData : HttpMethodMetaData.t)
  : Result MethodDeclarationStructure.t :=
  let responseBody := HttpMethodMetaData.responseBody httpMethodMetaData in
  parameters <- generateHttpMethodParameters httpMethodMetaData
                  (HttpMethodMetaData.path httpMethodMetaData) ;;
  Ok (MethodDeclarationStructure.mk
        (HttpMethodMetaData.name httpMethodMetaData)
        ("Promise<"
           ++ match responseBody with
              | Some body => toString (ResponseBody.type body)
              | None => "void"
              end
           ++ ">")
        parameters true Scope_Public
        (writeStatements httpMethodMetaData)).

Definition generateClientClass (httpClassMetaData : HttpClassMetaData.t)
  : Result ClassDeclarationStructure.t :=
  methods <- mapM generateClientMethod
               (HttpClassMetaData.methods httpClassMetaData) ;;
  Ok (ClassDeclarationStructure.mk
        (HttpClassMetaData.baseName httpClassMetaData ++ "Client")
        true methods).

Definition generateClientFile (httpFileMetaData : HttpFileMetaData.t)
  : Result (list ClassDeclarationStructure.t) :=
  mapM generateClientClass (HttpFileMetaData.classes httpFileMetaData).

End ClientGenerator.

Import NestControllerExtractor ClientGenerator.

(** ** Notions used to state the properties *)

(** A text that holds no single quote. *)
Fixpoint quoteFree (s : string) : bool :=
  match s with
  | EmptyString => true
  | String a s' => negb (Ascii.eqb a "'") && quoteFree s'
  end.


(** The path parameters of a path, in path order. *)
Definition pathParameters (path : list PathSegment) : list PathParameter :=
  flat_map (fun segment =>
              match segment with
              | Literal _ => []
              | PathParam p => [p]
              end) path.

(** The parameter [name: type] of a generated method. *)
Definition typedParameter (name : option string) (type : TsType)
  : ParameterDeclarationStructure.t :=
  ParameterDeclarationStructure.mk StructureKind_Parameter name (getText type).

Definition pathParameterOf (p : PathParameter)
  : ParameterDeclarationStructure.t :=
  typedParameter (parameterName p) (parameterType p).

(** The request body parameter, when the route has a request body. *)
Definition requestBodyParameter (route : HttpMethodMetaData.t)
  : list ParameterDeclarationStructure.t :=
  match HttpMethodMetaData.requestBody route with
  | Some body =>
      match RequestBody.type body with
      | Some type => [typedParameter (Some (RequestBody.name body)) type]
      | None => []
      end
  | None => []
  end.

(** The query parameters parameter, when the route has query parameters. *)
Definition queryParametersParameter (route : HttpMethodMetaData.t)
  : list ParameterDeclarationStructure.t :=
  match HttpMethodMetaData.queryParameters route with
  | Some query =>
      [typedParameter (Some (QueryParameters.name query))
         (QueryParameters.type query)]
  | None => []
  end.

(** [options: RequestOptions]. *)
Definition optionsParameter : ParameterDeclarationStructure.t :=
  ParameterDeclarationStructure.mk StructureKind_Parameter (Some "options")
    "RequestOptions".

(** A route as [HttpMethodMetaData] declares it: the type of its request
    body, when it has one, is a type and not [undefined]. *)
Definition requestBodyTyped (route : HttpMethodMetaData.t) : bool :=
  match HttpMethodMetaData.requestBody route with
  | Some body =>
      match RequestBody.type body with
      | Some _ => true
      | None => false
      end
  | None => true
  end.

(** [carried] is [type] with its asynchronous-result wrapper, if it is one,
    taken off: [type] itself when it is not a [Promise] type, and the type it
    carries (its first type argument) when it is. *)
Definition unwrapped (type carried : TsType) : Prop :=
  (isPromiseType type = false /\ carried = type)
  \/ (isPromiseType type = true
      /\ exists rest, getTypeArguments type = carried :: rest).

(** The text of a string literal: it opens with a single or a double quote
    and closes with the same. *)
Definition isStringLiteral (text : string) : bool :=
  match text with
  | String q rest =>
      (Ascii.eqb q "'" || Ascii.eqb q "034")
      && match String.get (String.length rest - 1) rest with
         | Some c => Ascii.eqb c q
         | None => false
         end
  | EmptyString => false
  end.

(** Whether the character occurs in the text. *)
Fixpoint occurs (c : ascii) (s : string) : bool :=
  match s with
  | EmptyString => false
  | String a s' => Ascii.eqb a c || occurs c s'
  end.

(** A parameter the scan of [extractPathParameterType] passes over when it
    looks for [parameterName]: it carries a [Param] decorator whose first
    argument is another name, or neither [Param] nor [Params]. *)
Definition passedOver (parameterName : option string)
    (parameter : ParameterDeclaration.t) : bool :=
  match ParameterDeclaration.getDecorator "Param" parameter with
  | Some parameterDecorator =>
      match index (Decorator.getArguments parameterDecorator) 0 with
      | Some argument =>
          negb (strictEquals (Regex.replaceQuotes argument) parameterName)
      | None => false
      end
  | None => negb (hasDecorator "Params" parameter)
  end.

(** ** Declarations and routes used as examples *)

(** A type without type arguments or properties; [str] is what the type
    object converts to as a string. *)
Definition namedType (text str : string) : TsType :=
  mkTsType text str [] false [].

Definition voidType (str : string) : TsType :=
  mkTsType "void" str [] true [].

(** [Promise<carried>]. *)
Definition promiseOf (carried : TsType) (str : string) : TsType :=
  mkTsType ("Promise<" ++ getText carried ++ ">") str [carried] false [].

(** An object type with the given properties. *)
Definition objectType (text str : string) (properties : list (string * TsType))
  : TsType :=
  mkTsType text str [] false properties.

Definition decoratorOf (name : string) (arguments : list string)
  : Decorator.t :=
  Decorator.mk name arguments (namedType "any" "any").

(** [@Get('/list') list(): Promise<User>] *)
Definition listMethod : MethodDeclaration.t :=
  MethodDeclaration.mk "list" [decoratorOf "Get" ["'/list'"]] []
    (promiseOf (namedType "User" "User") "Promise").

Definition listRoute : HttpMethodMetaData.t :=
  HttpMethodMetaData.mk "list" [Literal ""; Literal "users"; Literal "list"]
    (Verb GET) None
    (Some (ResponseBody.mk (MethodDeclaration.getType listMethod))) None.

(** [PUT orgs/:orgId/users/:id] with a body and query parameters. *)
Definition updateRoute : HttpMethodMetaData.t :=
  HttpMethodMetaData.mk "update"
    [ Literal "orgs";
      PathParam (mkPathParameter (Some "orgId") (namedType "string" "string"));
      Literal "users";
      PathParam (mkPathParameter (Some "id") (namedType "number" "number")) ]
    (Verb PUT)
    (Some (RequestBody.mk "payload"
             (Some (namedType "UpdateUserDto" "UpdateUserDto"))))
    (Some (ResponseBody.mk (namedType "User" "User")))
    (Some (QueryParameters.mk "query" (namedType "UpdateQuery" "UpdateQuery"))).

(** [@Post() create(@Body() dto: Promise<CreateUserDto>):
    Promise<Promise<User>>] *)
Definition createMethod : MethodDeclaration.t :=
  MethodDeclaration.mk "create" [decoratorOf "Post" []]
    [ParameterDeclaration.mk "dto" [decoratorOf "Body" []]
       (promiseOf (namedType "CreateUserDto" "CreateUserDto") "Promise")]
    (promiseOf (promiseOf (namedType "User" "User") "Promise") "Promise").

(** [@Delete('/all') clear(): Promise<void>] *)
Definition clearMethod : MethodDeclaration.t :=
  MethodDeclaration.mk "clear" [decoratorOf "Delete" ["'/all'"]] []
    (promiseOf (voidType "void") "Promise").

Definition clearRoute : HttpMethodMetaData.t :=
  HttpMethodMetaData.mk "clear" [Literal ""; Literal "users"; Literal "all"]
    (Verb DELETE) None
    (Some (ResponseBody.mk (MethodDeclaration.getType clearMethod))) None.

(** [users.service.ts] with [@Controller('/users') class UsersController]. *)
Definition serviceFile : SourceFile.t :=
  SourceFile.mk "users.service.ts"
    [ClassDeclaration.mk (Some "UsersController")
       [decoratorOf "Controller" ["'/users'"]] [listMethod]].

(** [@toString() health(): string], in a controller of base path
    [/users]. *)
Definition healthMethod : MethodDeclaration.t :=
  MethodDeclaration.mk "health" [decoratorOf "toString" []] []
    (namedType "string" "string").

(** [@Controller('/orgs') class OrgsController] with
    [@Get('/:orgId/members') listMembers(): Promise<User>]: nothing binds
    [orgId]. *)
Definition listMembersMethod : MethodDeclaration.t :=
  MethodDeclaration.mk "listMembers" [decoratorOf "Get" ["'/:orgId/members'"]]
    [] (promiseOf (namedType "User" "User") "Promise").

Definition orgsFile : SourceFile.t :=
  SourceFile.mk "orgs.controller.ts"
    [ClassDeclaration.mk (Some "OrgsController")
       [decoratorOf "Controller" ["'/orgs'"]] [listMembersMethod]].

(** [@Get('/:id') find(@Params() params: FindParams)] where [FindParams]
    has the property [id: number]; [decoratorType] is the type of the
    decorator node. *)
Definition findMethod (decoratorType : TsType) : MethodDeclaration.t :=
  MethodDeclaration.mk "find" [decoratorOf "Get" ["'/:id'"]]
    [ParameterDeclaration.mk "params"
       [Decorator.mk "Params" [] decoratorType]
       (objectType "FindParams" "FindParams"
          [("id", namedType "number" "number")])]
    (promiseOf (namedType "User" "User") "Promise").

(** [@Get('/:id') getUser(@Param('id') id: number): Promise<User>]; [str] is
    what the [User] type object converts to as a string. *)
Definition userType (str : string) : TsType := namedType "User" str.

Definition numberType : TsType := namedType "number" "number".

Definition getUserMethod (str : string) : MethodDeclaration.t :=
  MethodDeclaration.mk "getUser" [decoratorOf "Get" ["'/:id'"]]
    [ParameterDeclaration.mk "id" [decoratorOf "Param" ["'id'"]] numberType]
    (promiseOf (userType str) "Promise").

Definition usersController (str : string) : ClassDeclaration.t :=
  ClassDeclaration.mk (Some "UsersController")
    [decoratorOf "Controller" ["'/users'"]] [getUserMethod str].

(** The route the specification expects. *)
Definition expectedGetUserRoute (str : string) : HttpMethodMetaData.t :=
  HttpMethodMetaData.mk "getUser"
    [Literal "users"; PathParam (mkPathParameter (Some "id") numberType)]
    (Verb GET) None (Some (ResponseBody.mk (userType str))) None.

(** The route with the pieces of [/users/:id] as the split yields them. *)
Definition getUserRoute (str : string) : HttpMethodMetaData.t :=
  HttpMethodMetaData.mk "getUser"
    [ Literal ""; Literal "users";
      PathParam (mkPathParameter (Some "id") numberType) ]
    (Verb GET) None (Some (ResponseBody.mk (userType str))) None.

(** [@Controller('/users') class UsersController] with the method
    [list]. *)
Definition usersListController : ClassDeclaration.t :=
  ClassDeclaration.mk (Some "UsersController")
    [decoratorOf "Controller" ["'/users'"]] [listMethod].

Definition usersListFile : SourceFile.t :=
  SourceFile.mk "users.controller.ts" [usersListController].

(** [@Post() @Get('/both') both(): Promise<void>]: two verb decorators. *)
Definition bothMethod : MethodDeclaration.t :=
  MethodDeclaration.mk "both"
    [decoratorOf "Deprecated" []; decoratorOf "Post" [];
     decoratorOf "Get" ["'/both'"]] []
    (promiseOf (voidType "void") "Promise").

(** [search(@Req() req: Request, @Body() filter: Filter, @Body() other:
    Other, @QueryParams() page: Promise<Page>)] *)
Definition searchMethod : MethodDeclaration.t :=
  MethodDeclaration.mk "search" [decoratorOf "Post" ["'/search'"]]
    [ ParameterDeclaration.mk "req" [decoratorOf "Req" []]
        (namedType "Request" "Request");
      ParameterDeclaration.mk "filter" [decoratorOf "Body" []]
        (namedType "Filter" "Filter");
      ParameterDeclaration.mk "other" [decoratorOf "Body" []]
        (namedType "Other" "Other");
      ParameterDeclaration.mk "page" [decoratorOf "QueryParams" []]
        (promiseOf (namedType "Page" "Page") "Promise") ]
    (promiseOf (namedType "User" "User") "Promise").

(** [move(@Param('from') from: string, @Param('to') to: number)] *)
Definition moveMethod : MethodDeclaration.t :=
  MethodDeclaration.mk "move" [decoratorOf "Put" ["'/move'"]]
    [ ParameterDeclaration.mk "from" [decoratorOf "Param" ["'from'"]]
        (namedType "string" "string");
      ParameterDeclaration.mk "to" [decoratorOf "Param" ["'to'"]]
        (namedType "number" "number") ]
    (promiseOf (voidType "void") "Promise").

(** [pick(@Params() all: PickParams, @Param('id') id: number)]; the type of
    a decorator node is [any], which has no property. *)
Definition pickMethod : MethodDeclaration.t :=
  MethodDeclaration.mk "pick" [decoratorOf "Get" ["'/pick'"]]
    [ ParameterDeclaration.mk "all" [decoratorOf "Params" []]
        (objectType "PickParams" "PickParams"
           [("id", namedType "number" "number")]);
      ParameterDeclaration.mk "id" [decoratorOf "Param" ["'id'"]]
        (namedType "number" "number") ]
    (promiseOf (voidType "void") "Promise").

(** [@Post('/upload') upload(@Body() data: Promise<Buffer> | undefined)]:
    the text of the body type starts like a [Promise] type, and the union
    has no type argument. *)
Definition uploadMethod : MethodDeclaration.t :=
  MethodDeclaration.mk "upload" [decoratorOf "Post" ["'/upload'"]]
    [ ParameterDeclaration.mk "data" [decoratorOf "Body" []]
        (namedType "Promise<Buffer> | undefined" "[object Object]") ]
    (promiseOf (voidType "void") "Promise").

Definition uploadRoute : HttpMethodMetaData.t :=
  HttpMethodMetaData.mk "upload" [Literal ""; Literal "users"; Literal "upload"]
    (Verb POST) (Some (RequestBody.mk "data" None))
    (Some (ResponseBody.mk (MethodDeclaration.getType uploadMethod))) None.

(** [class UsersController] with a helper method between two routes. *)
Definition mixedController : ClassDeclaration.t :=
  ClassDeclaration.mk (Some "UsersController")
    [decoratorOf "Controller" ["'/users'"]]
    [ listMethod;
      MethodDeclaration.mk "helper" [decoratorOf "Injectable" []] []
        (namedType "string" "string");
      clearMethod ].

(** ** General facts about the run-time helpers *)

Section MapM.
Context {A B : Type} (f : A -> Result B).

Lemma mapM_Ok_Forall2 (xs : list A) (ys : list B) :
  mapM f xs = Ok ys -> Forall2 (fun x y => f x = Ok y) xs ys.
Proof.
  revert ys; induction xs as [|x xs IH]; intros ys H; simpl in H.
  - injection H as <-. constructor.
  - destruct (f x) as [y|e] eqn:Hx; simpl in H; [|discriminate].
    destruct (mapM f xs) as [ys'|e] eqn:Hxs; simpl in H; [|discriminate].
    injection H as <-. constructor; auto.
Qed.

Lemma mapM_Throw_In (xs : list A) (x : A) (e : Exn) :
  In x xs -> f x = Throw e -> exists e', mapM f xs = Throw e'.
Proof.
  induction xs as [|x0 xs IH]; intros Hin Hx; [contradiction|].
  simpl. destruct Hin as [->|Hin].
  - rewrite Hx. simpl. eauto.
  - destruct (f x0); simpl; [|eauto].
    destruct (IH Hin Hx) as [e' ->]. simpl. eauto.
Qed.

Lemma mapM_all_Ok (g : A -> B) (xs : list A) :
  (forall x, In x xs -> f x = Ok (g x)) -> mapM f xs = Ok (map g xs).
Proof.
  induction xs as [|x xs IH]; intros H; simpl; [reflexivity|].
  rewrite (H x (or_introl eq_refl)). simpl.
  rewrite IH by (intros; apply H; now right). reflexivity.
Qed.

End MapM.


Lemma stripSuffix_equation (suffix s : string) :
  stripSuffix suffix s =
    if String.eqb s suffix then Some ""
    else match s with
         | EmptyString => None
         | String a s' => option_map (String a) (stripSuffix suffix s')
         end.
Proof. destruct s; reflexivity. Qed.

Lemma stripSuffix_sound (suffix s before : string) :
  stripSuffix suffix s = Some before -> s = before ++ suffix.
Proof.
  revert before; induction s as [|a s IH]; intros before H;
    rewrite stripSuffix_equation in H;
    match type of H with context [String.eqb ?x ?y] =>
      destruct (String.eqb x y) eqn:E end.
  - injection H as <-. now apply String.eqb_eq in E.
  - discriminate.
  - injection H as <-. now apply String.eqb_eq in E.
  - destruct (stripSuffix suffix s) as [b|]; simpl in H; [|discriminate].
    injection H as <-. simpl. f_equal. now apply IH.
Qed.

Lemma removeAll_quoteFree (s : string) :
  quoteFree s = true -> removeAll "'" s = s.
Proof.
  induction s as [|a s IH]; simpl; intros H; [reflexivity|].
  apply andb_prop in H as [Ha Hs].
  destruct (Ascii.eqb a "'"); [discriminate|]. now rewrite IH.
Qed.

Lemma removeAll_app (c : ascii) (s1 s2 : string) :
  removeAll c (s1 ++ s2) = removeAll c s1 ++ removeAll c s2.
Proof.
  induction s1 as [|a s1 IH]; simpl; [reflexivity|].
  destruct (Ascii.eqb a c); simpl; now rewrite IH.
Qed.

Lemma removeAll_clean (s : string) : quoteFree (removeAll "'" s) = true.
Proof.
  induction s as [|a s IH]; simpl; [reflexivity|].
  destruct (Ascii.eqb a "'") eqn:E; [assumption|].
  simpl. now rewrite E, IH.
Qed.

(** ** What the extractor does with a path piece *)

(** The match array of the parameter pattern has no index 1. *)
Lemma execParameter_no_group (p : string) (m : list string) :
  Regex.execParameter p = Some m -> index m 1 = None.
Proof.
  unfold Regex.execParameter. destruct p as [|a rest]; [discriminate|].
  destruct (Ascii.eqb a ":"); [|discriminate].
  destruct (takeUntil "(" rest); [discriminate|].
  intros H; injection H as <-. reflexivity.
Qed.

(** No parameter binds a name that is [undefined]. *)
Lemma scanParameters_undefined (methodName : string)
    (parameters : list ParameterDeclaration.t) :
  exists e, scanParameters methodName None parameters = Throw e.
Proof.
  induction parameters as [|p ps IH]; cbn [scanParameters]; [eauto|].
  destruct (ParameterDeclaration.getDecorator "Param" p) as [d|].
  - destruct (index (Decorator.getArguments d) 0); [|eauto].
    cbn [strictEquals]. exact IH.
  - destruct (ParameterDeclaration.getDecorator "Params" p); [|exact IH].
    cbn [getPropertyOrThrow_getDeclaredType]. eauto.
Qed.

(** When no parameter carries a [Param] or [Params] decorator, the error
    names the method and the name that was looked up. *)
Lemma scanParameters_unbound (methodName : string)
    (parameterName : option string)
    (parameters : list ParameterDeclaration.t) :
  (forall p, In p parameters ->
             hasDecorator "Param" p = false
             /\ hasDecorator "Params" p = false) ->
  scanParameters methodName parameterName parameters
  = Throw (JsError ("No parameter with name " ++ interpolate parameterName
                    ++ " found in method " ++ methodName)).
Proof.
  unfold hasDecorator.
  induction parameters as [|p ps IH]; intros H; cbn [scanParameters];
    [reflexivity|].
  destruct (H p (or_introl eq_refl)) as [H1 H2].
  destruct (ParameterDeclaration.getDecorator "Param" p); [discriminate|].
  destruct (ParameterDeclaration.getDecorator "Params" p); [discriminate|].
  apply IH. intros q Hq. apply H. now right.
Qed.

(** A piece that matches the parameter pattern ends the extraction. *)
Lemma parseSegment_parameter_throws (method : MethodDeclaration.t)
    (p : string) (m : list string) :
  Regex.execParameter p = Some m -> exists e, parseSegment method p = Throw e.
Proof.
  intros H. unfold parseSegment. rewrite H.
  rewrite (execParameter_no_group _ _ H).
  unfold extractPathParameterType.
  destruct (scanParameters_undefined (MethodDeclaration.getName method)
              (MethodDeclaration.getParameters method)) as [e ->].
  simpl. eauto.
Qed.


(** ** Segment preservation *)



(** ** Parameter ordering *)

Lemma fold_left_pushPathParameter (path : list PathSegment)
    (parameters : list ParameterDeclarationStructure.t) :
  fold_left pushPathParameter path parameters
  = (parameters ++ map pathParameterOf (pathParameters path))%list.
Proof.
  revert parameters; induction path as [|segment path IH]; intros parameters.
  - simpl. now rewrite app_nil_r.
  - simpl. rewrite IH. destruct segment as [text|p]; simpl; [reflexivity|].
    unfold push. now rewrite <- app_assoc.
Qed.

Lemma generateHttpMethodParameters_typed (route : HttpMethodMetaData.t)
    (path : list PathSegment) :
  requestBodyTyped route = true ->
  generateHttpMethodParameters route path
  = Ok (map pathParameterOf (pathParameters path)
          ++ requestBodyParameter route
          ++ queryParametersParameter route
          ++ [optionsParameter])%list.
Proof.
  unfold requestBodyTyped, generateHttpMethodParameters,
    requestBodyParameter, queryParametersParameter.
  rewrite fold_left_pushPathParameter. simpl.
  destruct (HttpMethodMetaData.requestBody route) as [body|].
  - destruct (RequestBody.type body) as [type|]; [|discriminate].
    intros _. simpl.
    destruct (HttpMethodMetaData.queryParameters route);
      unfold push; now rewrite <- !app_assoc.
  - intros _. simpl.
    destruct (HttpMethodMetaData.queryParameters route);
      unfold push; now rewrite <- ?app_assoc.
Qed.

(** C2.  For every route, the generated method takes, in this order: one
    parameter per path parameter of the path, in path order, named after it
    and typed by the text of its type; then the request body parameter when
    the route has a request body; then the query parameters parameter when
    it has query parameters; then the parameter [options: RequestOptions]. *)
Theorem parameter_ordering (route : HttpMethodMetaData.t) :
  requestBodyTyped route = true ->
  exists generated,
    generateClientMethod route = Ok generated
    /\ MethodDeclarationStructure.parameters generated
       = (map pathParameterOf
            (pathParameters (HttpMethodMetaData.path route))
            ++ requestBodyParameter route
            ++ queryParametersParameter route
            ++ [optionsParameter])%list.
Proof.
  intros Htyped. unfold generateClientMethod.
  rewrite (generateHttpMethodParameters_typed _ _ Htyped). simpl.
  eexists; split; reflexivity.
Qed.

Lemma parameter_ordering_witness :
  requestBodyTyped updateRoute = true
  /\ exists generated,
       generateClientMethod updateRoute = Ok generated
       /\ MethodDeclarationStructure.parameters generated
          = [ ParameterDeclarationStructure.mk StructureKind_Parameter
                (Some "orgId") "string";
              ParameterDeclarationStructure.mk StructureKind_Parameter
                (Some "id") "number";
              ParameterDeclarationStructure.mk StructureKind_Parameter
                (Some "payload") "UpdateUserDto";
              ParameterDeclarationStructure.mk StructureKind_Parameter
                (Some "query") "UpdateQuery";
              ParameterDeclarationStructure.mk StructureKind_Parameter
                (Some "options") "RequestOptions" ].
Proof.
  split; [reflexivity|]. exact (parameter_ordering updateRoute eq_refl).
Defined.

(** ** Unwrapping of asynchronous results *)

Lemma unwrapped_index (type carried : TsType) :
  unwrapped type carried ->
  (if isPromiseType type then index (getTypeArguments type) 0 else Some type)
  = Some carried.
Proof.
  intros [[-> ->]|[-> [rest ->]]]; reflexivity.
Qed.

(** The type the extractor reads for the response is the type of the method
    node: a function type, whose text opens with a parenthesis, so that it
    never passes the [Promise] test, and which is not void. *)
Lemma isPromiseType_functionType (parameters : list ParameterDeclaration.t)
    (returnType : TsType) :
  isPromiseType (functionType parameters returnType) = false.
Proof. reflexivity. Qed.

Lemma extractResponseBody_function_type (method : MethodDeclaration.t) :
  extractResponseBody method
  = Ok (Some (ResponseBody.mk (MethodDeclaration.getType method))).
Proof. reflexivity. Qed.

(** C5 at its failing input.  For [create(@Body() dto:
    Promise<CreateUserDto>): Promise<Promise<User>>] no layer is taken off
    the return type: the response body is the function type of the method,
    as it is for every method.  The body type is unwrapped, to
    [CreateUserDto]; the body type [Promise<Buffer> | undefined] of
    [upload], which is not a [Promise] type, is not left unchanged: it is
    recorded as [undefined]. *)
Theorem return_type_is_not_unwrapped :
  getText (MethodDeclaration.getType createMethod)
  = "(dto: Promise<CreateUserDto>) => Promise<Promise<User>>"
  /\ extractResponseBody createMethod
     = Ok (Some (ResponseBody.mk (MethodDeclaration.getType createMethod)))
  /\ (forall method,
        extractResponseBody method
        = Ok (Some (ResponseBody.mk (MethodDeclaration.getType method))))
  /\ extractRequestBody createMethod
     = Some (RequestBody.mk "dto"
               (Some (namedType "CreateUserDto" "CreateUserDto")))
  /\ extractRequestBody uploadMethod = Some (RequestBody.mk "data" None).
Proof.
  split; [reflexivity|]. split; [reflexivity|].
  split; [apply extractResponseBody_function_type|].
  split; reflexivity.
Qed.

(** ** Void suppression *)

Lemma generateClientMethod_returnType (route : HttpMethodMetaData.t)
    (generated : MethodDeclarationStructure.t) :
  generateClientMethod route = Ok generated ->
  MethodDeclarationStructure.returnType generated
  = "Promise<"
      ++ match HttpMethodMetaData.responseBody route with
         | Some body => toString (ResponseBody.type body)
         | None => "void"
         end
      ++ ">".
Proof.
  unfold generateClientMethod.
  destruct (generateHttpMethodParameters route (HttpMethodMetaData.path route));
    simpl; intros H; [|discriminate].
  injection H as <-. reflexivity.
Qed.

(** C6 at its failing input.  For [@Delete('/all') clear(): Promise<void>]
    the route has a response body, the function type [() =>
    Promise<void>], and the generated method does not return
    [Promise<void>]: the return type of the method is never read, so that
    the void test is made on the function type.  The generator does its
    part: a route without response body gets the return type
    [Promise<void>]. *)
Theorem void_return_keeps_response_body :
  getText (MethodDeclaration.getType clearMethod) = "() => Promise<void>"
  /\ extractHttpMethodMetaData "/users" clearMethod = Ok clearRoute
  /\ HttpMethodMetaData.responseBody clearRoute
     = Some (ResponseBody.mk (MethodDeclaration.getType clearMethod))
  /\ (exists generated,
        generateClientMethod clearRoute = Ok generated
        /\ MethodDeclarationStructure.returnType generated
           = "Promise<[object Object]>")
  /\ (forall route generated,
        HttpMethodMetaData.responseBody route = None ->
        generateClientMethod route = Ok generated ->
        MethodDeclarationStructure.returnType generated = "Promise<void>").
Proof.
  split; [reflexivity|]. split; [reflexivity|]. split; [reflexivity|].
  split; [eexists; split; reflexivity|].
  intros route generated Hnone Hg.
  rewrite (generateClientMethod_returnType _ _ Hg), Hnone. reflexivity.
Qed.

(** ** Source units whose name lacks the controller suffix *)

Lemma execControllerFile_None (s : string) :
  (forall before, s <> before ++ ".controller.ts") ->
  Regex.execControllerFile s = None.
Proof.
  intros H. unfold Regex.execControllerFile.
  destruct (stripSuffix ".controller.ts" s) as [before|] eqn:E;
    [|reflexivity].
  exfalso. exact (H before (stripSuffix_sound _ _ _ E)).
Qed.

(** C10.  A source unit that holds a controller class but whose base name
    does not end in [.controller.ts] makes the extraction throw a
    [TypeError]: no file metadata is produced, neither for the unit nor for
    a project that holds it. *)
Theorem missing_controller_suffix (sourceFile : SourceFile.t) :
  isControllerFile sourceFile = true ->
  (forall before,
      SourceFile.getBaseName sourceFile <> before ++ ".controller.ts") ->
  extractHttpFileMetadata sourceFile = Throw TypeError
  /\ extractHttpFilesMetadata [sourceFile] = Throw TypeError
  /\ (forall project,
        In sourceFile project ->
        exists e, extractHttpFilesMetadata project = Throw e).
Proof.
  intros Hc Hname.
  assert (Hfile : extractHttpFileMetadata sourceFile = Throw TypeError).
  { unfold extractHttpFileMetadata, extractFileBaseName.
    now rewrite (execControllerFile_None _ Hname). }
  split; [assumption|]. split.
  - unfold extractHttpFilesMetadata. simpl. rewrite Hc. simpl.
    now rewrite Hfile.
  - intros project Hin. unfold extractHttpFilesMetadata.
    apply mapM_Throw_In with (x := sourceFile) (e := TypeError);
      [|assumption].
    apply filter_In. split; assumption.
Qed.

Lemma ends_with_service (before : string) :
  "users.service.ts" <> before ++ ".controller.ts".
Proof.
  intros H.
  assert (Hs : stripSuffix ".controller.ts" (before ++ ".controller.ts")
               = None) by (rewrite <- H; reflexivity).
  clear H. induction before as [|a before IH].
  - discriminate.
  - simpl append in Hs. rewrite stripSuffix_equation in Hs.
    destruct (String.eqb _ _); [discriminate|].
    destruct (stripSuffix ".controller.ts" (before ++ ".controller.ts"));
      [discriminate|]. now apply IH.
Qed.

Lemma missing_controller_suffix_witness :
  isControllerFile serviceFile = true
  /\ extractHttpFileMetadata serviceFile = Throw TypeError
  /\ extractHttpFilesMetadata [serviceFile] = Throw TypeError.
Proof.
  destruct (missing_controller_suffix serviceFile eq_refl ends_with_service)
    as [Hfile [Hproject _]].
  split; [reflexivity|]. split; assumption.
Defined.

(** ** The path contribution of a decorator *)

(** C9, as stated, fails: the argument of [@Controller(BASE_PATH)] is an
    identifier, not a string literal, and it contributes its own text to the
    path of [@Get() all()], not the empty string. *)
Lemma nonliteral_argument_contributes_text :
  isStringLiteral "BASE_PATH" = false
  /\ extractPathOfDecorator (decoratorOf "Controller" ["BASE_PATH"])
     <> ""
  /\ extractHttpMethodMetaDataFromClassDeclaration
       (extractPathOfDecorator (decoratorOf "Controller" ["BASE_PATH"]))
       (ClassDeclaration.mk (Some "UsersController")
          [decoratorOf "Controller" ["BASE_PATH"]]
          [MethodDeclaration.mk "all" [decoratorOf "Get" []] []
             (promiseOf (namedType "User" "User") "Promise")])
     = Ok [HttpMethodMetaData.mk "all" [Literal "BASE_PATH"] (Verb GET) None
             (Some (ResponseBody.mk
                      (functionType []
                         (promiseOf (namedType "User" "User") "Promise"))))
             None].
Proof.
  split; [reflexivity|]. split; [discriminate|reflexivity].
Qed.

(** C9, amended.  Reading the path contribution of a decorator never throws.
    A decorator without argument contributes the empty string; any other
    contributes the source text of its first argument with every single
    quote removed: the content of a single-quoted literal, and the text
    itself when the text holds no single quote, as for an argument that is
    not a literal. *)
Theorem path_contribution (decorator : Decorator.t) :
  (Decorator.getArguments decorator = [] ->
   extractPathOfDecorator decorator = "")
  /\ (forall argument rest,
        Decorator.getArguments decorator = argument :: rest ->
        extractPathOfDecorator decorator = removeAll "'" argument
        /\ quoteFree (extractPathOfDecorator decorator) = true
        /\ (quoteFree argument = true ->
            extractPathOfDecorator decorator = argument)
        /\ (forall content,
              argument = "'" ++ content ++ "'" ->
              quoteFree content = true ->
              extractPathOfDecorator decorator = content)).
Proof.
  unfold extractPathOfDecorator, Regex.replaceQuotes. split.
  - intros ->. reflexivity.
  - intros argument rest ->. simpl index. cbv iota.
    split; [reflexivity|]. split; [apply removeAll_clean|].
    split; [apply removeAll_quoteFree|].
    intros content -> Hfree. simpl.
    rewrite removeAll_app, (removeAll_quoteFree _ Hfree). simpl.
    clear. induction content; simpl; congruence.
Qed.

Lemma path_contribution_witness :
  extractPathOfDecorator (decoratorOf "Controller" []) = ""
  /\ extractPathOfDecorator (decoratorOf "Controller" ["'/users'"])
     = "/users"
  /\ extractPathOfDecorator (decoratorOf "Controller" ["BASE_PATH"])
     = "BASE_PATH".
Proof.
  split; [|split].
  - exact (proj1 (path_contribution (decoratorOf "Controller" [])) eq_refl).
  - destruct (proj2 (path_contribution
                       (decoratorOf "Controller" ["'/users'"]))
                _ _ eq_refl) as [_ [_ [_ H]]].
    exact (H "/users" eq_refl eq_refl).
  - destruct (proj2 (path_contribution
                       (decoratorOf "Controller" ["BASE_PATH"]))
                _ _ eq_refl) as [_ [_ [H _]]].
    exact (H eq_refl).
Defined.

(** ** Which decorators make a method a route *)

Lemma inTable_spec (k : string) :
  inTable k = true <->
  In k ["Get"; "Post"; "Put"; "Delete"; "Patch"] \/ inherited k = true.
Proof.
  unfold inTable, httpMethodByDecoratorName. cbn [existsb fst In].
  rewrite !orb_true_iff, !String.eqb_eq.
  intuition (try discriminate; auto).
Qed.

(** A method none of whose decorators is named after a verb or after a
    member of [Object.prototype] is not a route. *)
Lemma isHttpMethod_false (method : MethodDeclaration.t) :
  (forall d, In d (MethodDeclaration.getDecorators method) ->
             inTable (Decorator.getName d) = false) ->
  isHttpMethod method = false.
Proof.
  intros H. unfold isHttpMethod, getHttpMethodDecorator.
  destruct (find _ _) as [d|] eqn:E; [|reflexivity].
  apply find_some in E as [Hin Ht]. rewrite (H d Hin) in Ht. discriminate.
Qed.

(** C8 at its failing input.  [toString] is not in the vocabulary, yet the
    method that carries nothing else is taken for a route: the [in] test
    finds the key on [Object.prototype], and the verb of the route is the
    inherited function. *)
Theorem inherited_key_makes_a_route :
  inherited "toString" = true
  /\ isHttpMethod healthMethod = true
  /\ extractHttpMethodMetaDataFromClassDeclaration "/users"
       (ClassDeclaration.mk (Some "UsersController")
          [decoratorOf "Controller" ["'/users'"]] [healthMethod])
     = Ok [HttpMethodMetaData.mk "health" [Literal ""; Literal "users"]
             (Inherited "toString") None
             (Some (ResponseBody.mk (MethodDeclaration.getType healthMethod)))
             None].
Proof. repeat split. Qed.

(** ** Path parameters *)

(** C3 at its failing input.  The extraction fails and the error names the
    method, but the parameter it names is [undefined], not [orgId]: the
    parameter pattern captures nothing. *)
Theorem unbound_parameter_error :
  Regex.execParameter ":orgId" = Some [":orgId"]
  /\ extractHttpFilesMetadata [orgsFile]
     = Throw (JsError
         "No parameter with name undefined found in method listMembers").
Proof. split; reflexivity. Qed.

(** C4 at its failing input.  The group binding does not supply the type of
    [id]: the lookup is made on the type of the decorator, under a name that
    is [undefined], and it throws whatever the type of the decorator is, the
    declared type of the parameter included. *)
Theorem group_binding_throws (decoratorType : TsType) :
  extractHttpMethodMetaData "/users" (findMethod decoratorType)
  = Throw LibraryError.
Proof. reflexivity. Qed.

(** ** The scenario of [getUser] *)

(** The path of an extracted route is what parsing the pieces yields. *)
Lemma extractHttpMethodMetaData_path (basePath : string)
    (method : MethodDeclaration.t) (route : HttpMethodMetaData.t) :
  extractHttpMethodMetaData basePath method = Ok route ->
  exists decorator,
    getHttpMethodDecorator method = Some decorator
    /\ mapM (parseSegment method)
         (split "/" (basePath ++ extractPathOfDecorator decorator))
       = Ok (HttpMethodMetaData.path route).
Proof.
  unfold extractHttpMethodMetaData, parsePath.
  destruct (getHttpMethodDecorator method) as [decorator|]; [|discriminate].
  destruct (mapM (parseSegment method) _) as [segments|] eqn:Hp;
    cbn [bind]; [|discriminate].
  rewrite extractResponseBody_function_type. cbn [bind].
  intros H; injection H as <-. exists decorator.
  split; [reflexivity|exact Hp].
Qed.

(** C1, as stated, fails: the path of the scenario opens with the empty
    piece that the leading slash of [/users] leaves, kept as an empty
    literal, so that no route extracted from the scenario can have the path
    [Literal users, Parameter id] of the expected route. *)
Lemma getUser_leading_piece_is_kept :
  split "/" ("/users"
             ++ extractPathOfDecorator (decoratorOf "Get" ["'/:id'"]))
  = [""; "users"; ":id"]
  /\ parseSegment (getUserMethod "User") "" = Ok (Literal "")
  /\ (forall route,
        extractHttpMethodMetaData "/users" (getUserMethod "User") = Ok route ->
        nth_error (HttpMethodMetaData.path route) 0 = Some (Literal ""))
  /\ extractHttpMethodMetaData "/users" (getUserMethod "User")
     <> Ok (expectedGetUserRoute "User").
Proof.
  assert (Hfirst : forall route,
             extractHttpMethodMetaData "/users" (getUserMethod "User")
             = Ok route ->
             nth_error (HttpMethodMetaData.path route) 0
             = Some (Literal "")).
  { intros route H.
    apply extractHttpMethodMetaData_path in H as [decorator [Hd Hp]].
    injection Hd as <-.
    change (split "/" ("/users"
                       ++ extractPathOfDecorator
                            (decoratorOf "Get" ["'/:id'"])))
      with [""; "users"; ":id"] in Hp.
    apply mapM_Ok_Forall2 in Hp.
    inversion Hp as [|piece segment pieces segments Hhead Htail Hp1 Hp2].
    injection Hhead as <-. reflexivity. }
  split; [reflexivity|]. split; [reflexivity|]. split; [exact Hfirst|].
  intros H. apply Hfirst in H. discriminate.
Qed.

(** C1, amended.  In the scenario the base path and the path suffix make
    [/users/:id], which splits into an empty piece, [users] and [:id]; the
    first two are kept as literals, the verb is [GET], and there is no
    request body and no query parameters.  For the route [getUser] with the
    path [Literal(), Literal(users), Parameter(id, number)], the verb [GET]
    and the response body [User], generation emits a method [getUser(id:
    number, options: RequestOptions)] whose body builds the URL
    [/users/${id}] and dispatches a [GET] without body or query fields. *)
Theorem getUser_scenario (str : string) :
  extractBasePathFromClassDeclaration (usersController str) = Ok "/users"
  /\ getHttpMethodDecorator (getUserMethod str)
     = Some (decoratorOf "Get" ["'/:id'"])
  /\ split "/" ("/users" ++ extractPathOfDecorator
                             (decoratorOf "Get" ["'/:id'"]))
     = [""; "users"; ":id"]
  /\ mapM (parseSegment (getUserMethod str)) [""; "users"]
     = Ok [Literal ""; Literal "users"]
  /\ tableGet "Get" = Verb GET
  /\ extractRequestBody (getUserMethod str) = None
  /\ extractQueryParametersType (getUserMethod str) = None
  /\ exists generated,
       generateClientMethod (getUserRoute str) = Ok generated
       /\ MethodDeclarationStructure.name generated = "getUser"
       /\ MethodDeclarationStructure.parameters generated
          = [ ParameterDeclarationStructure.mk StructureKind_Parameter
                (Some "id") "number";
              ParameterDeclarationStructure.mk StructureKind_Parameter
                (Some "options") "RequestOptions" ]
       /\ MethodDeclarationStructure.statements generated
          = [ "const url = `/users/${id}`;";
              "return http.request({";
              "  ...options,";
              "  url,";
              "  method: 'GET',";
              "});" ].
Proof.
  repeat (split; [reflexivity|]). eexists. repeat split.
Qed.

(** ** Further properties of the extractor and of the generator *)

(** *** Splitting, joining and suffixes *)

Lemma split_not_nil (c : ascii) (s : string) : split c s <> [].
Proof.
  destruct s as [|a s]; simpl; [discriminate|].
  destruct (Ascii.eqb a c); [discriminate|].
  destruct (split c s); discriminate.
Qed.

Lemma join_cons (sep piece : string) (pieces : list string) :
  pieces <> [] ->
  join sep (piece :: pieces) = piece ++ sep ++ join sep pieces.
Proof. destruct pieces; [congruence|reflexivity]. Qed.

Lemma append_assoc (s1 s2 s3 : string) :
  (s1 ++ s2) ++ s3 = s1 ++ s2 ++ s3.
Proof. induction s1; simpl; congruence. Qed.

Lemma append_empty_r (s : string) : s ++ "" = s.
Proof. induction s; simpl; congruence. Qed.

(** Joining the pieces of a split with the separator gives the text back. *)
Lemma join_split (c : ascii) (s : string) :
  join (String c "") (split c s) = s.
Proof.
  induction s as [|a s IH]; [reflexivity|]. simpl split.
  destruct (Ascii.eqb a c) eqn:E.
  - apply Ascii.eqb_eq in E. subst a.
    rewrite join_cons by apply split_not_nil. simpl. now rewrite IH.
  - pose proof (split_not_nil c s) as Hne.
    destruct (split c s) as [|piece pieces]; [congruence|].
    destruct pieces as [|piece' pieces].
    + simpl in *. congruence.
    + rewrite join_cons by discriminate.
      rewrite join_cons in IH by discriminate.
      cbn [append] in *. now rewrite IH.
Qed.

Lemma split_pieces_free (c : ascii) (s piece : string) :
  In piece (split c s) -> occurs c piece = false.
Proof.
  revert piece; induction s as [|a s IH]; intros piece Hin.
  - destruct Hin as [<-|[]]. reflexivity.
  - simpl in Hin. destruct (Ascii.eqb a c) eqn:E.
    + destruct Hin as [<-|Hin]; [reflexivity|auto].
    + pose proof (split_not_nil c s) as Hne.
      destruct (split c s) as [|p ps]; [congruence|].
      destruct Hin as [<-|Hin].
      * simpl. rewrite E. apply IH. now left.
      * apply IH. now right.
Qed.

Lemma split_free (c : ascii) (s : string) :
  occurs c s = false -> split c s = [s].
Proof.
  induction s as [|a s IH]; [reflexivity|]. simpl.
  destruct (Ascii.eqb a c); [discriminate|]. simpl.
  intros H. now rewrite (IH H).
Qed.

Lemma last_In {A} (xs : list A) (d : A) : xs <> [] -> In (last xs d) xs.
Proof.
  induction xs as [|x xs IH]; [congruence|]. intros _.
  destruct xs as [|y xs]; [now left|].
  right. apply IH. discriminate.
Qed.

(** What stands before the last piece is empty or ends in the separator. *)
Lemma split_last_after_separator (c : ascii) (s : string) :
  exists before,
    s = before ++ last (split c s) ""
    /\ (before = "" \/ exists d, before = d ++ String c "").
Proof.
  induction s as [|a s [before [IH Hshape]]];
    [exists ""; split; [reflexivity|now left]|].
  pose proof (split_not_nil c s) as Hne.
  pose proof (join_split c s) as Hjoin.
  pose proof (split_free c s) as Hone.
  pose proof (last_In (split c s) "" Hne) as Hin.
  apply split_pieces_free in Hin. simpl split.
  destruct (Ascii.eqb a c) eqn:E.
  - apply Ascii.eqb_eq in E. subst a. exists (String c before). split.
    + destruct (split c s) as [|p ps]; [congruence|].
      simpl. f_equal. exact IH.
    + right. destruct Hshape as [->|[d ->]];
        [exists ""|exists (String c d)]; reflexivity.
  - destruct (split c s) as [|p ps]; [congruence|].
    destruct ps as [|p' ps].
    + exists "". simpl in *. split; [congruence|now left].
    + exists (String a before). split; [simpl in *; f_equal; exact IH|].
      right. destruct Hshape as [->|[d ->]];
        [|exists (String a d); reflexivity].
      exfalso.
      assert (Hs : occurs c s = false) by (rewrite IH; exact Hin).
      specialize (Hone Hs). discriminate.
Qed.

Lemma append_length (s1 s2 : string) :
  String.length (s1 ++ s2) = String.length s1 + String.length s2.
Proof. induction s1; simpl; congruence. Qed.

(** A text that ends in the suffix loses exactly the suffix. *)
Lemma stripSuffix_complete (suffix before : string) :
  stripSuffix suffix (before ++ suffix) = Some before.
Proof.
  induction before as [|a before IH]; rewrite stripSuffix_equation.
  - simpl. now rewrite String.eqb_refl.
  - destruct (String.eqb (String a before ++ suffix) suffix) eqn:E.
    + apply String.eqb_eq in E. apply (f_equal String.length) in E.
      rewrite append_length in E. simpl in E. lia.
    + simpl. now rewrite IH.
Qed.

Lemma stripSuffix_None (suffix s : string) :
  (forall before, s <> before ++ suffix) -> stripSuffix suffix s = None.
Proof.
  intros H. destruct (stripSuffix suffix s) as [before|] eqn:E;
    [|reflexivity].
  exfalso. exact (H before (stripSuffix_sound _ _ _ E)).
Qed.

(** *** The names of files and classes *)

(** X1.  When the metadata of a source file is extracted, the API name is
    the placeholder [wip], and the file base name is the part of the base
    name of the file that stands before [.controller.ts] and after the last
    slash, if any: it is not empty and holds no slash, and what stands
    before it is empty or ends in a slash. *)
Theorem file_base_name_extracted (sourceFile : SourceFile.t)
    (file : HttpFileMetaData.t) :
  extractHttpFileMetadata sourceFile = Ok file ->
  HttpFileMetaData.apiName file = "wip"
  /\ HttpFileMetaData.fileBaseName file <> ""
  /\ occurs "/" (HttpFileMetaData.fileBaseName file) = false
  /\ exists directory,
       SourceFile.getBaseName sourceFile
       = directory ++ HttpFileMetaData.fileBaseName file ++ ".controller.ts"
       /\ (directory = "" \/ exists d, directory = d ++ "/").
Proof.
  unfold extractHttpFileMetadata, extractFileBaseName,
    Regex.execControllerFile.
  destruct (stripSuffix ".controller.ts" (SourceFile.getBaseName sourceFile))
    as [before|] eqn:Hs; [|discriminate].
  apply stripSuffix_sound in Hs.
  destruct (split_last_after_separator "/" before)
    as [directory [Hd Hshape]].
  pose proof (last_In (split "/" before) "" (split_not_nil _ _)) as Hin.
  apply split_pieces_free in Hin.
  destruct (last (split "/" before) "") as [|a group] eqn:Hg; [discriminate|].
  cbn [bind]. destruct (extractHttpClassMetaData sourceFile);
    cbn [bind]; [|discriminate].
  intros H; injection H as <-. cbn.
  split; [reflexivity|]. split; [discriminate|]. split; [exact Hin|].
  exists directory. split; [|exact Hshape].
  rewrite Hs, Hd. now rewrite append_assoc.
Qed.

Lemma file_base_name_extracted_witness :
  extractHttpFileMetadata usersListFile
  = Ok (HttpFileMetaData.mk "wip" "users"
          [HttpClassMetaData.mk "Users" [listRoute]])
  /\ exists directory,
       "users.controller.ts" = directory ++ "users" ++ ".controller.ts"
       /\ (directory = "" \/ exists d, directory = d ++ "/").
Proof.
  split; [reflexivity|].
  exact (proj2 (proj2 (proj2
           (file_base_name_extracted usersListFile _ eq_refl)))).
Defined.

(** X2.  A file named [x.controller.ts], with [x] not empty and free of
    slashes, has the file base name [x]. *)
Theorem file_base_name_of_controller_file (sourceFile : SourceFile.t)
    (x : string) :
  x <> "" ->
  occurs "/" x = false ->
  SourceFile.getBaseName sourceFile = x ++ ".controller.ts" ->
  extractFileBaseName sourceFile = Ok x.
Proof.
  intros Hne Hfree Hname.
  unfold extractFileBaseName, Regex.execControllerFile.
  rewrite Hname, stripSuffix_complete, (split_free _ _ Hfree). simpl.
  destruct x; [congruence|reflexivity].
Qed.

Lemma file_base_name_of_controller_file_witness :
  extractFileBaseName usersListFile = Ok "users".
Proof.
  apply (file_base_name_of_controller_file usersListFile "users");
    [discriminate|reflexivity|reflexivity].
Defined.

(** X3.  When the metadata of a class is extracted, the class has a name;
    the base name is that name without a final [Controller], and the name
    itself when it does not end so; the client class generated from the
    metadata is named after the base name followed by [Client], and is
    exported. *)
Theorem class_base_name (classDeclaration : ClassDeclaration.t)
    (class : HttpClassMetaData.t) :
  extractHttpClassMetaDataFromClassDeclaration classDeclaration = Ok class ->
  exists className,
    ClassDeclaration.getName classDeclaration = Some className
    /\ (forall x, className = x ++ "Controller" ->
                  HttpClassMetaData.baseName class = x)
    /\ ((forall x, className <> x ++ "Controller") ->
        HttpClassMetaData.baseName class = className)
    /\ (forall generated,
          generateClientClass class = Ok generated ->
          ClassDeclarationStructure.name generated
          = HttpClassMetaData.baseName class ++ "Client"
          /\ ClassDeclarationStructure.isExported generated = true).
Proof.
  unfold extractHttpClassMetaDataFromClassDeclaration.
  destruct (extractBasePathFromClassDeclaration classDeclaration)
    as [basePath|]; cbn [bind]; [|discriminate].
  destruct (extractHttpMethodMetaDataFromClassDeclaration basePath
              classDeclaration) as [methods|]; cbn [bind]; [|discriminate].
  destruct (ClassDeclaration.getName classDeclaration) as [className|];
    [|discriminate].
  intros H; injection H as <-. exists className. cbn.
  unfold Regex.replaceControllerSuffix.
  split; [reflexivity|]. split; [|split].
  - intros x ->. now rewrite stripSuffix_complete.
  - intros Hno. now rewrite (stripSuffix_None _ _ Hno).
  - unfold generateClientClass. intros generated. cbn.
    destruct (mapM generateClientMethod methods); cbn [bind];
      [|discriminate].
    intros H; injection H as <-. split; reflexivity.
Qed.

Lemma class_base_name_witness :
  extractHttpClassMetaDataFromClassDeclaration usersListController
  = Ok (HttpClassMetaData.mk "Users" [listRoute])
  /\ exists generated,
       generateClientClass (HttpClassMetaData.mk "Users" [listRoute])
       = Ok generated
       /\ ClassDeclarationStructure.name generated = "UsersClient".
Proof.
  split; [reflexivity|].
  destruct (class_base_name usersListController _ eq_refl)
    as [className [_ [_ [_ Hgenerated]]]].
  eexists. split; [reflexivity|].
  exact (proj1 (Hgenerated _ eq_refl)).
Defined.

(** *** When a method is extracted, and what its route holds *)

Lemma parseSegment_literal (method : MethodDeclaration.t) (piece : string) :
  Regex.execParameter piece = None ->
  parseSegment method piece = Ok (Literal piece).
Proof. intros H. unfold parseSegment. now rewrite H. Qed.

Lemma mapM_parseSegment_Ok (method : MethodDeclaration.t)
    (pieces : list string) (segments : list PathSegment) :
  mapM (parseSegment method) pieces = Ok segments <->
  (forall piece, In piece pieces -> Regex.execParameter piece = None)
  /\ segments = map Literal pieces.
Proof.
  split.
  - revert segments; induction pieces as [|piece pieces IH];
      intros segments H; simpl in H.
    + injection H as <-. split; [intros ? []|reflexivity].
    + destruct (Regex.execParameter piece) as [m|] eqn:E.
      * destruct (parseSegment_parameter_throws method piece m E) as [e He].
        rewrite He in H. discriminate.
      * rewrite (parseSegment_literal _ _ E) in H. cbn [bind] in H.
        destruct (mapM (parseSegment method) pieces) as [rest|];
          cbn [bind] in H; [|discriminate].
        injection H as <-. destruct (IH rest eq_refl) as [Hall ->].
        split; [|reflexivity].
        intros p [<-|Hp]; [assumption|auto].
  - intros [Hall ->]. apply mapM_all_Ok.
    intros piece Hin. apply parseSegment_literal. auto.
Qed.

Lemma extractHttpMethodMetaData_inv (basePath : string)
    (method : MethodDeclaration.t) (route : HttpMethodMetaData.t) :
  extractHttpMethodMetaData basePath method = Ok route ->
  exists decorator,
    getHttpMethodDecorator method = Some decorator
    /\ (forall piece,
          In piece (split "/" (basePath ++ extractPathOfDecorator decorator))
          -> Regex.execParameter piece = None)
    /\ route
       = HttpMethodMetaData.mk (MethodDeclaration.getName method)
           (map Literal
              (split "/" (basePath ++ extractPathOfDecorator decorator)))
           (tableGet (Decorator.getName decorator))
           (extractRequestBody method)
           (Some (ResponseBody.mk (MethodDeclaration.getType method)))
           (extractQueryParametersType method).
Proof.
  unfold extractHttpMethodMetaData, parsePath.
  destruct (getHttpMethodDecorator method) as [decorator|]; [|discriminate].
  destruct (mapM _ _) as [segments|] eqn:Hp; cbn [bind]; [|discriminate].
  apply mapM_parseSegment_Ok in Hp as [Hall ->].
  rewrite extractResponseBody_function_type. cbn [bind].
  intros H. exists decorator.
  split; [reflexivity|]. split; [assumption|]. now injection H as <-.
Qed.

Lemma extractHttpMethodMetaData_intro (basePath : string)
    (method : MethodDeclaration.t) (decorator : Decorator.t) :
  getHttpMethodDecorator method = Some decorator ->
  (forall piece,
      In piece (split "/" (basePath ++ extractPathOfDecorator decorator))
      -> Regex.execParameter piece = None) ->
  extractHttpMethodMetaData basePath method
  = Ok (HttpMethodMetaData.mk (MethodDeclaration.getName method)
          (map Literal
             (split "/" (basePath ++ extractPathOfDecorator decorator)))
          (tableGet (Decorator.getName decorator))
          (extractRequestBody method)
          (Some (ResponseBody.mk (MethodDeclaration.getType method)))
          (extractQueryParametersType method)).
Proof.
  intros Hd Hall. unfold extractHttpMethodMetaData, parsePath.
  rewrite Hd.
  rewrite (proj2 (mapM_parseSegment_Ok method _ _) (conj Hall eq_refl)).
  cbn [bind]. now rewrite extractResponseBody_function_type.
Qed.

(** X4.  A method is extracted as a route exactly when it carries a
    decorator that passes the table test and no piece of base path + path
    suffix matches the parameter pattern; the declared return type plays no
    part.  The route then holds the name of the method, the pieces as
    literals, the table entry of the decorator, the request body and the
    query parameters of the method, and as response body, always present,
    the type of the method node: the function type of the method. *)
Theorem method_extraction (basePath : string) (method : MethodDeclaration.t)
    (route : HttpMethodMetaData.t) :
  extractHttpMethodMetaData basePath method = Ok route <->
  exists decorator,
    getHttpMethodDecorator method = Some decorator
    /\ (forall piece,
          In piece (split "/" (basePath ++ extractPathOfDecorator decorator))
          -> Regex.execParameter piece = None)
    /\ route
       = HttpMethodMetaData.mk (MethodDeclaration.getName method)
           (map Literal
              (split "/" (basePath ++ extractPathOfDecorator decorator)))
           (tableGet (Decorator.getName decorator))
           (extractRequestBody method)
           (Some (ResponseBody.mk
                    (functionType (MethodDeclaration.getParameters method)
                       (MethodDeclaration.getReturnType method))))
           (extractQueryParametersType method).
Proof.
  split.
  - apply extractHttpMethodMetaData_inv.
  - intros [decorator [Hd [Hall ->]]].
    now apply extractHttpMethodMetaData_intro.
Qed.

(** [clear(): Promise<void>] is extracted with the response body
    [() => Promise<void>]. *)
Lemma method_extraction_witness :
  extractHttpMethodMetaData "/users" clearMethod
  = Ok (HttpMethodMetaData.mk "clear"
          [Literal ""; Literal "users"; Literal "all"] (Verb DELETE) None
          (Some (ResponseBody.mk
                   (mkTsType "() => Promise<void>" "[object Object]" []
                      false [])))
          None).
Proof.
  apply (proj2 (method_extraction "/users" clearMethod _)).
  exists (decoratorOf "Delete" ["'/all'"]).
  split; [reflexivity|]. split; [|reflexivity].
  intros piece [<-|[<-|[<-|[]]]]; reflexivity.
Defined.

Lemma mapM_Ok_map {A B C} (f : A -> Result B) (g : B -> C) (h : A -> C)
    (xs : list A) (ys : list B) :
  (forall x y, f x = Ok y -> g y = h x) ->
  mapM f xs = Ok ys -> map g ys = map h xs.
Proof.
  intros Hfg H. apply mapM_Ok_Forall2 in H.
  induction H as [|x y xs ys Hxy _ IH]; [reflexivity|].
  simpl. now rewrite (Hfg x y Hxy), IH.
Qed.

Lemma find_first {A} (p : A -> bool) (before : list A) (x : A)
    (after : list A) :
  (forall y, In y before -> p y = false) -> p x = true ->
  find p (before ++ x :: after) = Some x.
Proof.
  intros Hb Hx. induction before as [|y before IH]; simpl.
  - now rewrite Hx.
  - rewrite (Hb y (or_introl eq_refl)). apply IH.
    intros z Hz. apply Hb. now right.
Qed.

Lemma find_all_false {A} (p : A -> bool) (xs : list A) :
  find p xs = None <-> (forall x, In x xs -> p x = false).
Proof.
  split; [intros H x Hx; exact (find_none p xs H x Hx)|].
  induction xs as [|x xs IH]; intros H; [reflexivity|]. simpl.
  rewrite (H x (or_introl eq_refl)). apply IH.
  intros y Hy. apply H. now right.
Qed.

Lemma extractHttpMethodMetaData_name (basePath : string)
    (method : MethodDeclaration.t) (route : HttpMethodMetaData.t) :
  extractHttpMethodMetaData basePath method = Ok route ->
  HttpMethodMetaData.name route = MethodDeclaration.getName method.
Proof.
  intros H. apply extractHttpMethodMetaData_inv in H
    as [decorator [_ [_ ->]]]. reflexivity.
Qed.

Lemma generateClientMethod_name (route : HttpMethodMetaData.t)
    (generated : MethodDeclarationStructure.t) :
  generateClientMethod route = Ok generated ->
  MethodDeclarationStructure.name generated = HttpMethodMetaData.name route.
Proof.
  unfold generateClientMethod.
  destruct (generateHttpMethodParameters route (HttpMethodMetaData.path route));
    cbn [bind]; intros H; [|discriminate].
  injection H as <-. reflexivity.
Qed.

(** X5.  The methods of a generated client class are named after the
    methods of the controller class that pass the table test, one for one
    and in declaration order; the other methods of the class leave no
    trace. *)
Theorem client_methods_follow_route_methods
    (classDeclaration : ClassDeclaration.t) (class : HttpClassMetaData.t)
    (generated : ClassDeclarationStructure.t) :
  extractHttpClassMetaDataFromClassDeclaration classDeclaration = Ok class ->
  generateClientClass class = Ok generated ->
  map HttpMethodMetaData.name (HttpClassMetaData.methods class)
  = map MethodDeclaration.getName
      (filter isHttpMethod (ClassDeclaration.getMethods classDeclaration))
  /\ map MethodDeclarationStructure.name
       (ClassDeclarationStructure.methods generated)
     = map MethodDeclaration.getName
         (filter isHttpMethod (ClassDeclaration.getMethods classDeclaration)).
Proof.
  unfold extractHttpClassMetaDataFromClassDeclaration,
    extractHttpMethodMetaDataFromClassDeclaration, generateClientClass.
  destruct (extractBasePathFromClassDeclaration classDeclaration)
    as [basePath|]; cbn [bind]; [|discriminate].
  destruct (mapM (extractHttpMethodMetaData basePath) _) as [routes|] eqn:Hr;
    cbn [bind]; [|discriminate].
  destruct (ClassDeclaration.getName classDeclaration); [|discriminate].
  intros H; injection H as <-. cbn.
  destruct (mapM generateClientMethod routes) as [methods|] eqn:Hm;
    cbn [bind]; [|discriminate].
  intros H; injection H as <-. cbn.
  assert (Hnames : map HttpMethodMetaData.name routes
                   = map MethodDeclaration.getName
                       (filter isHttpMethod
                          (ClassDeclaration.getMethods classDeclaration))).
  { eapply mapM_Ok_map; [|exact Hr].
    intros; eapply extractHttpMethodMetaData_name; eassumption. }
  split; [assumption|]. rewrite <- Hnames.
  eapply mapM_Ok_map; [|exact Hm].
  intros; now apply generateClientMethod_name.
Qed.

Lemma client_methods_follow_route_methods_witness :
  exists class generated,
    extractHttpClassMetaDataFromClassDeclaration mixedController = Ok class
    /\ generateClientClass class = Ok generated
    /\ map MethodDeclarationStructure.name
         (ClassDeclarationStructure.methods generated)
       = ["list"; "clear"].
Proof.
  eexists. eexists. split; [reflexivity|]. split; [reflexivity|].
  exact (proj2 (client_methods_follow_route_methods mixedController _ _
                  eq_refl eq_refl)).
Defined.

(** *** Which decorator and which parameters a route is read from *)

(** X6.  Of several decorators that pass the table test, the first in
    declaration order decides: the route takes its verb and its path suffix
    from it, and the decorators after it are not read. *)
Theorem first_verb_decorator_wins (basePath : string)
    (method : MethodDeclaration.t) (before : list Decorator.t)
    (decorator : Decorator.t) (after : list Decorator.t)
    (route : HttpMethodMetaData.t) :
  MethodDeclaration.getDecorators method = (before ++ decorator :: after)%list ->
  (forall d, In d before -> inTable (Decorator.getName d) = false) ->
  inTable (Decorator.getName decorator) = true ->
  extractHttpMethodMetaData basePath method = Ok route ->
  HttpMethodMetaData.method route = tableGet (Decorator.getName decorator)
  /\ HttpMethodMetaData.path route
     = map Literal
         (split "/" (basePath ++ extractPathOfDecorator decorator)).
Proof.
  intros Hds Hbefore Hd H.
  apply extractHttpMethodMetaData_inv in H
    as [d [Hfind [_ ->]]].
  unfold getHttpMethodDecorator in Hfind. rewrite Hds in Hfind.
  rewrite (find_first (fun d => inTable (Decorator.getName d))
             before decorator after Hbefore Hd) in Hfind.
  injection Hfind as <-. split; reflexivity.
Qed.

Lemma first_verb_decorator_wins_witness :
  exists route,
    extractHttpMethodMetaData "/users" bothMethod = Ok route
    /\ HttpMethodMetaData.method route = Verb POST
    /\ HttpMethodMetaData.path route = [Literal ""; Literal "users"].
Proof.
  eexists. split; [reflexivity|].
  apply (first_verb_decorator_wins "/users" bothMethod
           [decoratorOf "Deprecated" []] (decoratorOf "Post" [])
           [decoratorOf "Get" ["'/both'"]]);
    [reflexivity|intros d [<-|[]]; reflexivity|reflexivity|reflexivity].
Defined.

(** X7.  The request body of a method is read from the first parameter, in
    declaration order, that carries a [Body] decorator: its name, and its
    type unwrapped.  Later [Body] parameters are not read, and a method
    without any has no request body. *)
Theorem request_body_parameter (method : MethodDeclaration.t) :
  (extractRequestBody method = None <->
   forall p, In p (MethodDeclaration.getParameters method) ->
             hasDecorator "Body" p = false)
  /\ (forall before p after,
        MethodDeclaration.getParameters method = (before ++ p :: after)%list ->
        (forall q, In q before -> hasDecorator "Body" q = false) ->
        hasDecorator "Body" p = true ->
        exists type,
          extractRequestBody method
          = Some (RequestBody.mk (ParameterDeclaration.getName p) type)
          /\ (forall carried,
                unwrapped (ParameterDeclaration.getType p) carried ->
                type = Some carried)).
Proof.
  unfold extractRequestBody. split.
  - rewrite <- find_all_false.
    destruct (find (hasDecorator "Body")
                (MethodDeclaration.getParameters method));
      split; intros H; (reflexivity || discriminate).
  - intros before p after -> Hbefore Hp.
    rewrite (find_first _ before p after Hbefore Hp). cbv zeta.
    eexists. split; [reflexivity|].
    intros carried Hu. now rewrite (unwrapped_index _ _ Hu).
Qed.

Lemma request_body_parameter_witness :
  extractRequestBody searchMethod
  = Some (RequestBody.mk "filter" (Some (namedType "Filter" "Filter")))
  /\ extractRequestBody listMethod = None.
Proof.
  split.
  - destruct (proj2 (request_body_parameter searchMethod)
                [ParameterDeclaration.mk "req" [decoratorOf "Req" []]
                   (namedType "Request" "Request")]
                (ParameterDeclaration.mk "filter" [decoratorOf "Body" []]
                   (namedType "Filter" "Filter"))
                _ eq_refl
                ltac:(intros q [<-|[]]; reflexivity) eq_refl)
      as [type [Hbody Htype]].
    rewrite Hbody. f_equal. f_equal. apply Htype. left. split; reflexivity.
  - apply (proj1 (request_body_parameter listMethod)). intros p [].
Defined.

(** X8.  The query parameters of a method are read from the first
    parameter that carries a [QueryParams] decorator: its name and its
    declared type as it is, a [Promise] type included.  A method without
    such a parameter has no query parameters. *)
Theorem query_parameters_parameter (method : MethodDeclaration.t) :
  (extractQueryParametersType method = None <->
   forall p, In p (MethodDeclaration.getParameters method) ->
             hasDecorator "QueryParams" p = false)
  /\ (forall before p after,
        MethodDeclaration.getParameters method = (before ++ p :: after)%list ->
        (forall q, In q before -> hasDecorator "QueryParams" q = false) ->
        hasDecorator "QueryParams" p = true ->
        extractQueryParametersType method
        = Some (QueryParameters.mk (ParameterDeclaration.getName p)
                  (ParameterDeclaration.getType p))).
Proof.
  unfold extractQueryParametersType. split.
  - rewrite <- find_all_false.
    destruct (find (hasDecorator "QueryParams")
                (MethodDeclaration.getParameters method));
      split; intros H; (reflexivity || discriminate).
  - intros before p after -> Hbefore Hp.
    now rewrite (find_first _ before p after Hbefore Hp).
Qed.

Lemma query_parameters_parameter_witness :
  extractQueryParametersType searchMethod
  = Some (QueryParameters.mk "page"
            (promiseOf (namedType "Page" "Page") "Promise"))
  /\ extractQueryParametersType listMethod = None.
Proof.
  split.
  - apply (proj2 (query_parameters_parameter searchMethod)
             [ ParameterDeclaration.mk "req" [decoratorOf "Req" []]
                 (namedType "Request" "Request");
               ParameterDeclaration.mk "filter" [decoratorOf "Body" []]
                 (namedType "Filter" "Filter");
               ParameterDeclaration.mk "other" [decoratorOf "Body" []]
                 (namedType "Other" "Other") ]
             (ParameterDeclaration.mk "page" [decoratorOf "QueryParams" []]
                (promiseOf (namedType "Page" "Page") "Promise"))
             []);
      [reflexivity|intros q [<-|[<-|[<-|[]]]]; reflexivity|reflexivity].
  - apply (proj1 (query_parameters_parameter listMethod)). intros p [].
Defined.

(** *** The type of a path parameter, for a given name *)

Lemma scanParameters_passedOver (methodName : string)
    (parameterName : option string)
    (before rest : list ParameterDeclaration.t) :
  (forall q, In q before -> passedOver parameterName q = true) ->
  scanParameters methodName parameterName (before ++ rest)
  = scanParameters methodName parameterName rest.
Proof.
  induction before as [|q before IH]; intros H; [reflexivity|].
  cbn [app scanParameters].
  pose proof (H q (or_introl eq_refl)) as Hq.
  unfold passedOver, hasDecorator in Hq.
  destruct (ParameterDeclaration.getDecorator "Param" q) as [d|].
  - destruct (index (Decorator.getArguments d) 0) as [argument|];
      [|discriminate].
    destruct (strictEquals (Regex.replaceQuotes argument) parameterName);
      [discriminate|].
    apply IH. intros; apply H; now right.
  - destruct (ParameterDeclaration.getDecorator "Params" q);
      [discriminate|].
    apply IH. intros; apply H; now right.
Qed.

(** X9.  When every parameter of the method is passed over (its [Param]
    decorator names something else, or it carries neither [Param] nor
    [Params]), the lookup throws an error whose message gives the name that
    was looked up and the name of the method. *)
Theorem unbound_name_message (method : MethodDeclaration.t)
    (parameterName : option string) :
  (forall p, In p (MethodDeclaration.getParameters method) ->
             passedOver parameterName p = true) ->
  extractPathParameterType method parameterName
  = Throw (JsError ("No parameter with name " ++ interpolate parameterName
                    ++ " found in method "
                    ++ MethodDeclaration.getName method)).
Proof.
  intros H. unfold extractPathParameterType.
  rewrite <- (app_nil_r (MethodDeclaration.getParameters method)).
  now rewrite (scanParameters_passedOver _ _ _ [] H).
Qed.

Lemma unbound_name_message_witness :
  extractPathParameterType moveMethod (Some "id")
  = Throw (JsError "No parameter with name id found in method move").
Proof.
  apply (unbound_name_message moveMethod (Some "id")).
  intros p [<-|[<-|[]]]; reflexivity.
Defined.

(** X10.  Looked up under a name, the type of a path parameter is the
    declared type of the first parameter, after those passed over, whose
    [Param] decorator has that name as its first argument, quotes
    removed. *)
Theorem param_binding (method : MethodDeclaration.t) (name : string)
    (before : list ParameterDeclaration.t) (p : ParameterDeclaration.t)
    (after : list ParameterDeclaration.t) (decorator : Decorator.t)
    (argument : string) (arguments : list string) :
  MethodDeclaration.getParameters method = (before ++ p :: after)%list ->
  (forall q, In q before -> passedOver (Some name) q = true) ->
  ParameterDeclaration.getDecorator "Param" p = Some decorator ->
  Decorator.getArguments decorator = argument :: arguments ->
  Regex.replaceQuotes argument = name ->
  extractPathParameterType method (Some name)
  = Ok (ParameterDeclaration.getType p).
Proof.
  intros Hps Hbefore Hd Hargs Hname. unfold extractPathParameterType.
  rewrite Hps, (scanParameters_passedOver _ _ _ _ Hbefore).
  cbn [scanParameters]. rewrite Hd, Hargs. cbn [index nth_error].
  rewrite Hname. cbn [strictEquals]. now rewrite String.eqb_refl.
Qed.

Lemma param_binding_witness :
  extractPathParameterType moveMethod (Some "to")
  = Ok (namedType "number" "number").
Proof.
  apply (param_binding moveMethod "to"
           [ParameterDeclaration.mk "from" [decoratorOf "Param" ["'from'"]]
              (namedType "string" "string")]
           (ParameterDeclaration.mk "to" [decoratorOf "Param" ["'to'"]]
              (namedType "number" "number"))
           [] (decoratorOf "Param" ["'to'"]) "'to'" []);
    [reflexivity|intros q [<-|[]]; reflexivity
    |reflexivity|reflexivity|reflexivity].
Defined.

(** X11.  The first parameter, after those passed over, that carries
    [Params] and no [Param] ends the scan: the result is the lookup of the
    name among the properties of the type of the [Params] decorator, and
    the parameters after it are not read, a [Param] of that very name
    included. *)
Theorem params_binding_ends_scan (method : MethodDeclaration.t)
    (parameterName : option string)
    (before : list ParameterDeclaration.t) (p : ParameterDeclaration.t)
    (after : list ParameterDeclaration.t) (decorator : Decorator.t) :
  MethodDeclaration.getParameters method = (before ++ p :: after)%list ->
  (forall q, In q before -> passedOver parameterName q = true) ->
  ParameterDeclaration.getDecorator "Param" p = None ->
  ParameterDeclaration.getDecorator "Params" p = Some decorator ->
  extractPathParameterType method parameterName
  = getPropertyOrThrow_getDeclaredType (Decorator.getType decorator)
      parameterName.
Proof.
  intros Hps Hbefore Hparam Hparams. unfold extractPathParameterType.
  rewrite Hps, (scanParameters_passedOver _ _ _ _ Hbefore).
  cbn [scanParameters]. now rewrite Hparam, Hparams.
Qed.

Lemma params_binding_ends_scan_witness :
  extractPathParameterType pickMethod (Some "id") = Throw LibraryError.
Proof.
  exact (params_binding_ends_scan pickMethod (Some "id") [] _ _ _
           eq_refl (fun q (H : In q []) => match H with end)
           eq_refl eq_refl).
Defined.

(** *** What the generator emits *)

Lemma generateHttpMethodParameters_Ok_typed (route : HttpMethodMetaData.t)
    (path : list PathSegment)
    (parameters : list ParameterDeclarationStructure.t) :
  generateHttpMethodParameters route path = Ok parameters ->
  requestBodyTyped route = true.
Proof.
  unfold generateHttpMethodParameters, requestBodyTyped.
  destruct (HttpMethodMetaData.requestBody route) as [body|];
    [|reflexivity].
  destruct (RequestBody.type body); [reflexivity|discriminate].
Qed.

Lemma generateHttpMethodParameters_untyped (route : HttpMethodMetaData.t)
    (path : list PathSegment) :
  requestBodyTyped route = false ->
  generateHttpMethodParameters route path = Throw TypeError.
Proof.
  unfold generateHttpMethodParameters, requestBodyTyped.
  destruct (HttpMethodMetaData.requestBody route) as [body|];
    [|discriminate].
  destruct (RequestBody.type body); [discriminate|reflexivity].
Qed.

Lemma generateClientMethod_inv (route : HttpMethodMetaData.t)
    (generated : MethodDeclarationStructure.t) :
  generateClientMethod route = Ok generated ->
  requestBodyTyped route = true
  /\ MethodDeclarationStructure.parameters generated
     = (map pathParameterOf (pathParameters (HttpMethodMetaData.path route))
          ++ requestBodyParameter route
          ++ queryParametersParameter route
          ++ [optionsParameter])%list
  /\ MethodDeclarationStructure.statements generated = writeStatements route.
Proof.
  unfold generateClientMethod.
  destruct (generateHttpMethodParameters route (HttpMethodMetaData.path route))
    as [parameters|] eqn:Hp; cbn [bind]; [|discriminate].
  pose proof (generateHttpMethodParameters_Ok_typed _ _ _ Hp) as Htyped.
  rewrite (generateHttpMethodParameters_typed _ _ Htyped) in Hp.
  injection Hp as <-. intros H; injection H as <-. cbn. auto.
Qed.

Lemma pathParameters_In (path : list PathSegment) (p : PathParameter) :
  In (PathParam p) path -> In p (pathParameters path).
Proof.
  intros H. unfold pathParameters. apply in_flat_map.
  exists (PathParam p). split; [assumption|now left].
Qed.

(** X12.  A generated method declares what its body refers to: [options],
    every path parameter of the path, the request body when the route has
    one and the query parameters when it has them.  The dispatch call has a
    [body] field exactly when the route has a request body, and a
    [queryParams] field exactly when it has query parameters. *)
Theorem generated_method_is_closed (route : HttpMethodMetaData.t)
    (generated : MethodDeclarationStructure.t) :
  generateClientMethod route = Ok generated ->
  let declared :=
    map ParameterDeclarationStructure.name
      (MethodDeclarationStructure.parameters generated) in
  let statements := MethodDeclarationStructure.statements generated in
  In (Some "options") declared
  /\ In "  ...options," statements
  /\ (forall p, In (PathParam p) (HttpMethodMetaData.path route) ->
                In (parameterName p) declared)
  /\ (forall body,
        HttpMethodMetaData.requestBody route = Some body ->
        In (Some (RequestBody.name body)) declared
        /\ In ("  body: " ++ RequestBody.name body ++ ",") statements)
  /\ (forall query,
        HttpMethodMetaData.queryParameters route = Some query ->
        In (Some (QueryParameters.name query)) declared
        /\ In ("  queryParams: " ++ QueryParameters.name query ++ ",")
             statements)
  /\ (HttpMethodMetaData.requestBody route = None ->
      forall n, ~ In ("  body: " ++ n ++ ",") statements)
  /\ (HttpMethodMetaData.queryParameters route = None ->
      forall n, ~ In ("  queryParams: " ++ n ++ ",") statements).
Proof.
  intros H declared statements. subst declared statements.
  apply generateClientMethod_inv in H as [Htyped [-> ->]].
  rewrite !map_app.
  unfold requestBodyTyped, requestBodyParameter, queryParametersParameter,
    writeStatements, push in *.
  refine (conj _ (conj _ (conj _ (conj _ (conj _ (conj _ _)))))).
  - rewrite !in_app_iff. right. right. right. now left.
  - destruct (HttpMethodMetaData.requestBody route);
      destruct (HttpMethodMetaData.queryParameters route);
      simpl; auto 10.
  - intros p Hp. rewrite in_app_iff. left. rewrite map_map.
    apply in_map_iff. exists p. split; [reflexivity|].
    now apply pathParameters_In.
  - intros body H. rewrite H in *.
    destruct (RequestBody.type body); [|discriminate]. split.
    + rewrite !in_app_iff. right. left. now left.
    + destruct (HttpMethodMetaData.queryParameters route); simpl; auto 10.
  - intros query H. rewrite H. split.
    + rewrite !in_app_iff. right. right. left. now left.
    + destruct (HttpMethodMetaData.requestBody route); simpl; auto 10.
  - intros H n. rewrite H.
    destruct (HttpMethodMetaData.queryParameters route); simpl;
      intuition discriminate.
  - intros H n. rewrite H.
    destruct (HttpMethodMetaData.requestBody route); simpl;
      intuition discriminate.
Qed.

Lemma generated_method_is_closed_witness :
  exists generated,
    generateClientMethod updateRoute = Ok generated
    /\ In "  body: payload," (MethodDeclarationStructure.statements generated)
    /\ In (Some "payload")
         (map ParameterDeclarationStructure.name
            (MethodDeclarationStructure.parameters generated)).
Proof.
  eexists. split; [reflexivity|].
  destruct (generated_method_is_closed updateRoute _ eq_refl)
    as [_ [_ [_ [Hbody _]]]].
  destruct (Hbody _ eq_refl) as [Hdeclared Hline].
  split; assumption.
Defined.

Section MapMTotal.
Context {A B : Type} (f : A -> Result B).

Lemma mapM_Ok_all (xs : list A) :
  (forall x, In x xs -> exists y, f x = Ok y) ->
  exists ys, mapM f xs = Ok ys.
Proof.
  induction xs as [|x xs IH]; intros H; simpl; [eauto|].
  destruct (H x (or_introl eq_refl)) as [y ->].
  destruct IH as [ys ->]; [intros; apply H; now right|].
  simpl. eauto.
Qed.

Lemma mapM_Throw_same (xs : list A) (x : A) (e : Exn) :
  (forall x' e', f x' = Throw e' -> e' = e) ->
  In x xs -> f x = Throw e -> mapM f xs = Throw e.
Proof.
  intros Hsame Hin Hx.
  destruct (mapM_Throw_In f xs x e Hin Hx) as [e' H]. rewrite H. f_equal.
  clear Hin Hx. revert H. induction xs as [|x0 xs IH]; simpl; [discriminate|].
  destruct (f x0) as [y|e0] eqn:E; cbn [bind].
  - destruct (mapM f xs); cbn [bind]; [discriminate|].
    intros H; injection H as <-. now apply IH.
  - intros H; injection H as <-. exact (Hsame _ _ E).
Qed.

End MapMTotal.

Lemma generateClientMethod_typed (route : HttpMethodMetaData.t) :
  requestBodyTyped route = true ->
  exists generated, generateClientMethod route = Ok generated.
Proof.
  intros H. unfold generateClientMethod.
  rewrite (generateHttpMethodParameters_typed _ _ H). cbn [bind]. eauto.
Qed.

Lemma generateClientMethod_Throw (route : HttpMethodMetaData.t) (e : Exn) :
  generateClientMethod route = Throw e -> e = TypeError.
Proof.
  unfold generateClientMethod.
  destruct (requestBodyTyped route) eqn:H.
  - rewrite (generateHttpMethodParameters_typed _ _ H). discriminate.
  - rewrite (generateHttpMethodParameters_untyped _ _ H). cbn [bind].
    congruence.
Qed.

Lemma generateClientClass_Throw (class : HttpClassMetaData.t) (e : Exn) :
  generateClientClass class = Throw e -> e = TypeError.
Proof.
  unfold generateClientClass.
  destruct (mapM generateClientMethod (HttpClassMetaData.methods class))
    as [methods|e'] eqn:H; cbn [bind]; [discriminate|].
  intros E; injection E as <-.
  revert H. induction (HttpClassMetaData.methods class) as [|r rs IH];
    simpl; [discriminate|].
  destruct (generateClientMethod r) eqn:Hr; cbn [bind].
  - destruct (mapM generateClientMethod rs); cbn [bind]; [discriminate|].
    intros H; injection H as <-. now apply IH.
  - intros H; injection H as <-.
    now apply generateClientMethod_Throw in Hr.
Qed.

(** X13.  The client of a file is generated when the request body of every
    route has a type: one class per class of the metadata, in order, each
    exported and named after its base name followed by [Client], with one
    method per route, named after the route.  A route whose request body has no type makes the generation
    of the whole file throw a [TypeError]. *)
Theorem client_file_generation (file : HttpFileMetaData.t) :
  ((forall class route,
       In class (HttpFileMetaData.classes file) ->
       In route (HttpClassMetaData.methods class) ->
       requestBodyTyped route = true) ->
   exists generated,
     generateClientFile file = Ok generated
     /\ map ClassDeclarationStructure.name generated
        = map (fun class => HttpClassMetaData.baseName class ++ "Client")
            (HttpFileMetaData.classes file)
     /\ map ClassDeclarationStructure.isExported generated
        = map (fun _ => true) (HttpFileMetaData.classes file)
     /\ map (fun class =>
               map MethodDeclarationStructure.name
                 (ClassDeclarationStructure.methods class)) generated
        = map (fun class =>
                 map HttpMethodMetaData.name (HttpClassMetaData.methods class))
            (HttpFileMetaData.classes file))
  /\ (forall class route,
        In class (HttpFileMetaData.classes file) ->
        In route (HttpClassMetaData.methods class) ->
        requestBodyTyped route = false ->
        generateClientFile file = Throw TypeError).
Proof.
  unfold generateClientFile. split.
  - intros Htyped.
    destruct (mapM_Ok_all generateClientClass (HttpFileMetaData.classes file))
      as [generated Hg].
    { intros class Hc. unfold generateClientClass.
      destruct (mapM_Ok_all generateClientMethod
                  (HttpClassMetaData.methods class)) as [methods ->].
      { intros route Hr. apply generateClientMethod_typed. eauto. }
      cbn [bind]. eauto. }
    exists generated. split; [assumption|]. split; [|split].
    + eapply mapM_Ok_map; [|exact Hg].
      intros class g. unfold generateClientClass.
      destruct (mapM generateClientMethod (HttpClassMetaData.methods class));
        cbn [bind]; [|discriminate].
      intros H; injection H as <-. reflexivity.
    + eapply mapM_Ok_map; [|exact Hg].
      intros class g. unfold generateClientClass.
      destruct (mapM generateClientMethod (HttpClassMetaData.methods class));
        cbn [bind]; [|discriminate].
      intros H; injection H as <-. reflexivity.
    + eapply mapM_Ok_map; [|exact Hg].
      intros class g. unfold generateClientClass.
      destruct (mapM generateClientMethod (HttpClassMetaData.methods class))
        as [methods|] eqn:Hm; cbn [bind]; [|discriminate].
      intros H; injection H as <-. cbn.
      eapply mapM_Ok_map; [|exact Hm].
      intros; now apply generateClientMethod_name.
  - intros class route Hc Hr Huntyped.
    apply mapM_Throw_same with (x := class);
      [apply generateClientClass_Throw|assumption|].
    unfold generateClientClass.
    rewrite (mapM_Throw_same generateClientMethod
               (HttpClassMetaData.methods class) route TypeError);
      [reflexivity|apply generateClientMethod_Throw|assumption|].
    unfold generateClientMethod.
    now rewrite (generateHttpMethodParameters_untyped _ _ Huntyped).
Qed.

Lemma client_file_generation_witness :
  (exists generated,
     generateClientFile
       (HttpFileMetaData.mk "wip" "users"
          [HttpClassMetaData.mk "Users" [listRoute; updateRoute]])
     = Ok generated
     /\ map ClassDeclarationStructure.name generated = ["UsersClient"]
     /\ map ClassDeclarationStructure.isExported generated = [true])
  /\ generateClientFile
       (HttpFileMetaData.mk "wip" "users"
          [HttpClassMetaData.mk "Users" [listRoute; uploadRoute]])
     = Throw TypeError.
Proof.
  split.
  - destruct (proj1 (client_file_generation
                       (HttpFileMetaData.mk "wip" "users"
                          [HttpClassMetaData.mk "Users"
                             [listRoute; updateRoute]])))
      as [generated [Hg [Hnames [Hexported _]]]].
    { intros class route [<-|[]] [<-|[<-|[]]]; reflexivity. }
    exists generated. split; [assumption|]. split; assumption.
  - apply (proj2 (client_file_generation
                    (HttpFileMetaData.mk "wip" "users"
                       [HttpClassMetaData.mk "Users"
                          [listRoute; uploadRoute]]))
             (HttpClassMetaData.mk "Users" [listRoute; uploadRoute])
             uploadRoute);
      [now left|right; now left|reflexivity].
Defined.

(** X14.  A body parameter whose type has a text that starts with
    [Promise<] and no type argument is extracted with a type that is
    [undefined]; the route is then produced, and generating its method
    throws a [TypeError]. *)
Theorem promise_like_body_without_argument (basePath : string)
    (method : MethodDeclaration.t) (route : HttpMethodMetaData.t)
    (bodyParameter : ParameterDeclaration.t) :
  extractHttpMethodMetaData basePath method = Ok route ->
  find (hasDecorator "Body") (MethodDeclaration.getParameters method)
  = Some bodyParameter ->
  isPromiseType (ParameterDeclaration.getType bodyParameter) = true ->
  getTypeArguments (ParameterDeclaration.getType bodyParameter) = [] ->
  HttpMethodMetaData.requestBody route
  = Some (RequestBody.mk (ParameterDeclaration.getName bodyParameter) None)
  /\ generateClientMethod route = Throw TypeError.
Proof.
  intros H Hfind Hp Hargs.
  apply extractHttpMethodMetaData_inv in H
    as [decorator [_ [_ ->]]].
  assert (Hbody : extractRequestBody method
                  = Some (RequestBody.mk
                            (ParameterDeclaration.getName bodyParameter)
                            None)).
  { unfold extractRequestBody. rewrite Hfind. cbv zeta.
    now rewrite Hp, Hargs. }
  split; [exact Hbody|].
  unfold generateClientMethod.
  rewrite generateHttpMethodParameters_untyped; [reflexivity|].
  unfold requestBodyTyped. cbn. now rewrite Hbody.
Qed.

Lemma promise_like_body_without_argument_witness :
  extractHttpMethodMetaData "/users" uploadMethod = Ok uploadRoute
  /\ generateClientMethod uploadRoute = Throw TypeError.
Proof.
  split; [reflexivity|].
  exact (proj2 (promise_like_body_without_argument "/users" uploadMethod
                  uploadRoute _ eq_refl eq_refl eq_refl eq_refl)).
Defined.






(** *** What makes a run fail, and what is left out of it *)

Lemma extractHttpMethodMetaData_parameter_throws (basePath : string)
    (method : MethodDeclaration.t) (decorator : Decorator.t)
    (piece : string) :
  getHttpMethodDecorator method = Some decorator ->
  In piece (split "/" (basePath ++ extractPathOfDecorator decorator)) ->
  Regex.execParameter piece <> None ->
  exists e, extractHttpMethodMetaData basePath method = Throw e.
Proof.
  intros Hd Hin Hp.
  destruct (extractHttpMethodMetaData basePath method) as [route|e] eqn:E;
    [|eauto].
  apply extractHttpMethodMetaData_inv in E
    as [d [Hd' [Hall _]]].
  rewrite Hd in Hd'. injection Hd' as <-.
  exfalso. apply Hp. now apply Hall.
Qed.

(** X16.  One route whose path has a piece that matches the parameter
    pattern makes the whole run fail: when a file of the project holds a
    controller class with such a route method, the extraction of the
    project throws and yields no metadata at all, for any file. *)
Theorem path_parameter_aborts_run (nestProject : Project)
    (sourceFile : SourceFile.t) (classDeclaration : ClassDeclaration.t)
    (controller : Decorator.t) (method : MethodDeclaration.t)
    (decorator : Decorator.t) (piece : string) :
  In sourceFile nestProject ->
  In classDeclaration (SourceFile.getClasses sourceFile) ->
  ClassDeclaration.getDecorator "Controller" classDeclaration
  = Some controller ->
  In method (ClassDeclaration.getMethods classDeclaration) ->
  getHttpMethodDecorator method = Some decorator ->
  In piece (split "/" (extractPathOfDecorator controller
                       ++ extractPathOfDecorator decorator)) ->
  Regex.execParameter piece <> None ->
  exists e, extractHttpFilesMetadata nestProject = Throw e.
Proof.
  intros Hfile Hclass Hcontroller Hmethod Hd Hpiece Hp.
  assert (HisClass : isControllerClass classDeclaration = true)
    by (unfold isControllerClass; now rewrite Hcontroller).
  destruct (extractHttpMethodMetaData_parameter_throws _ _ _ _ Hd Hpiece Hp)
    as [e1 He1].
  assert (Hc : exists e,
             extractHttpClassMetaDataFromClassDeclaration classDeclaration
             = Throw e).
  { unfold extractHttpClassMetaDataFromClassDeclaration,
      extractBasePathFromClassDeclaration,
      extractHttpMethodMetaDataFromClassDeclaration.
    rewrite Hcontroller. cbn [bind].
    destruct (mapM_Throw_In
                (extractHttpMethodMetaData (extractPathOfDecorator controller))
                (filter isHttpMethod
                   (ClassDeclaration.getMethods classDeclaration))
                method e1) as [e2 ->]; [|assumption|cbn [bind]; eauto].
    apply filter_In. split; [assumption|].
    unfold isHttpMethod. now rewrite Hd. }
  destruct Hc as [e3 He3].
  assert (Hf : exists e, extractHttpFileMetadata sourceFile = Throw e).
  { unfold extractHttpFileMetadata.
    destruct (extractFileBaseName sourceFile); cbn [bind]; [|eauto].
    unfold extractHttpClassMetaData.
    destruct (mapM_Throw_In extractHttpClassMetaDataFromClassDeclaration
                (filter isControllerClass (SourceFile.getClasses sourceFile))
                classDeclaration e3) as [e4 ->];
      [|assumption|cbn [bind]; eauto].
    apply filter_In. split; assumption. }
  destruct Hf as [e5 He5].
  unfold extractHttpFilesMetadata.
  apply mapM_Throw_In with (x := sourceFile) (e := e5); [|assumption].
  apply filter_In. split; [assumption|].
  unfold isControllerFile. apply existsb_exists.
  exists classDeclaration. split; assumption.
Qed.

Lemma path_parameter_aborts_run_witness :
  exists e,
    extractHttpFilesMetadata [usersListFile; orgsFile] = Throw e.
Proof.
  apply (path_parameter_aborts_run [usersListFile; orgsFile] orgsFile
           (ClassDeclaration.mk (Some "OrgsController")
              [decoratorOf "Controller" ["'/orgs'"]] [listMembersMethod])
           (decoratorOf "Controller" ["'/orgs'"]) listMembersMethod
           (decoratorOf "Get" ["'/:orgId/members'"]) ":orgId");
    [right; now left|now left|reflexivity|now left|reflexivity
    |right; right; now left|discriminate].
Defined.

(** X17.  What carries no routing decorator is left out and cannot make a
    run fail: a file without controller class has no effect on the
    extraction of a project, whatever its name, and a class without
    [Controller] decorator none on the extraction of its file. *)
Theorem unannotated_units_are_dropped :
  (forall (before after : Project) (sourceFile : SourceFile.t),
      isControllerFile sourceFile = false ->
      extractHttpFilesMetadata (before ++ sourceFile :: after)%list
      = extractHttpFilesMetadata (before ++ after)%list)
  /\ (forall (name : string) (before after : list ClassDeclaration.t)
             (classDeclaration : ClassDeclaration.t),
        isControllerClass classDeclaration = false ->
        extractHttpFileMetadata
          (SourceFile.mk name (before ++ classDeclaration :: after)%list)
        = extractHttpFileMetadata
            (SourceFile.mk name (before ++ after)%list)).
Proof.
  split.
  - intros before after sourceFile H. unfold extractHttpFilesMetadata.
    rewrite !filter_app. simpl. now rewrite H.
  - intros name before after classDeclaration H.
    unfold extractHttpFileMetadata, extractHttpClassMetaData,
      extractFileBaseName. cbn [SourceFile.getBaseName SourceFile.getClasses].
    rewrite !filter_app. simpl. now rewrite H.
Qed.

Lemma unannotated_units_are_dropped_witness :
  extractHttpFilesMetadata
    [SourceFile.mk "app.module.ts"
       [ClassDeclaration.mk None [decoratorOf "Module" []] []];
     usersListFile]
  = extractHttpFilesMetadata [usersListFile].
Proof.
  exact (proj1 unannotated_units_are_dropped [] [usersListFile]
           (SourceFile.mk "app.module.ts"
              [ClassDeclaration.mk None [decoratorOf "Module" []] []])
           eq_refl).
Defined.
